(** * skyfield.positionlib: positions, observers and the observation pipeline

    A shallow embedding of [skyfield/positionlib.py].

    Conventions of the embedding.
    - A Python [float] (and a NumPy float64 of a single instant) is a real
      number of the Standard Library: the arithmetic of the module is read
      exactly, so an equation proved here is the one the code satisfies up
      to rounding.
    - A NumPy array of three components is a triple [vec]; a 3x3 array is a
      triple of rows [matrix].  The model is that of a single instant: the
      trailing ellipsis of every [einsum] subscript is empty.
    - A Python exception is a value of [exn]; a call that may raise returns
      [result].
    - An attribute that Python attaches after construction ([observer],
      [topos], [altaz_rotation], [ephemeris], [lighttime]) is an [option]
      field: [None] is the attribute being absent, and reading it raises
      [AttributeError].  An attribute that the constructor always sets and
      that may hold Python's [None] ([jd], [velocity]) is an [option] field
      too, [None] being Python's [None].
    - The functions imported from [constants], [functions], [earthlib],
      [relativity], [timelib] and [units] are not part of this file: they
      are variables of the sections that use them. *)

From Stdlib Require Import Reals Lra RNsatz List String ZArith Bool.
Import ListNotations.

Set Warnings "-register-all".

Local Open Scope R_scope.

(** ** Exceptions *)

Inductive exn : Type :=
| ValueError (msg : string)
| TypeError (msg : string)
| AttributeError (attr : string).

Inductive result (A : Type) : Type :=
| Ok (a : A)
| Raise (e : exn).

Arguments Ok {A} a.
Arguments Raise {A} e.

Definition bind {A B : Type} (m : result A) (k : A -> result B) : result B :=
  match m with
  | Ok a => k a
  | Raise e => Raise e
  end.

Notation "x <- m ;; k" := (bind m (fun x => k))
  (at level 61, m at next level, right associativity).

Notation "' pat <- m ;; k" := (bind m (fun x => match x with pat => k end))
  (at level 61, pat pattern, m at next level, right associativity).

(** Reading an attribute: [obj.name] raises [AttributeError] when the
    attribute is absent.  The same error is what Python raises for
    [None.name]. *)
Definition getattr {A : Type} (name : string) (field : option A) : result A :=
  match field with
  | Some a => Ok a
  | None => Raise (AttributeError name)
  end.

(** [try: body except AttributeError: raise e]. *)
Definition except_AttributeError {A : Type} (body : result A) (e : exn)
  : result A :=
  match body with
  | Raise (AttributeError _) => Raise e
  | other => other
  end.

Definition is_ValueError {A : Type} (r : result A) : bool :=
  match r with
  | Raise (ValueError _) => true
  | _ => false
  end.

Definition is_Ok {A : Type} (r : result A) : bool :=
  match r with
  | Ok _ => true
  | Raise _ => false
  end.

(** ** Vectors and matrices *)

Definition vec : Type := (R * R * R)%type.
Definition matrix : Type := (vec * vec * vec)%type.

(** [a - b] on arrays of three components. *)
Definition sub (a b : vec) : vec :=
  let '(a0, a1, a2) := a in
  let '(b0, b1, b2) := b in
  (a0 - b0, a1 - b1, a2 - b2).

(** [functions.dots]: the inner product. *)
Definition dots (a b : vec) : R :=
  let '(a0, a1, a2) := a in
  let '(b0, b1, b2) := b in
  a0 * b0 + a1 * b1 + a2 * b2.

(** [functions.length_of]. *)
Definition length_of (a : vec) : R := sqrt (dots a a).

(** [einsum('ij...,j...->i...', m, v)]: the matrix applied to the vector. *)
Definition mat_vec (m : matrix) (v : vec) : vec :=
  let '(r0, r1, r2) := m in
  (dots r0 v, dots r1 v, dots r2 v).

Definition transpose (m : matrix) : matrix :=
  let '((a00, a01, a02), (a10, a11, a12), (a20, a21, a22)) := m in
  ((a00, a10, a20), (a01, a11, a21), (a02, a12, a22)).

(** ** Values the module takes from its collaborators *)

(** [timelib.JulianDate], as this module reads it: the scalars [tt], [tdb]
    and [gast], and the matrices [M] and [MT]. *)
Record JulianDate : Type := mkJulianDate {
  tt : R;
  tdb : R;
  gast : R;
  M : matrix;
  MT : matrix
}.

(** [units.Angle], as this module builds it: the keyword the value was
    given under, and the two display options. *)
Inductive AngleValue : Type :=
| radians_kw (x : R)
| degrees_kw (x : R).

Record Angle : Type := mkAngle {
  angle_value : AngleValue;
  preference_hours : bool;
  signed : bool
}.

(** [Angle(radians=x)], [Angle(degrees=x)] with the default options. *)
Definition Angle_radians (x : R) : Angle := mkAngle (radians_kw x) false false.
Definition Angle_degrees (x : R) : Angle := mkAngle (degrees_kw x) false false.

(** Modelled from the spec: [constants.TAU] is not among the sources; the
    spin angle [gast * TAU / 24] is given as [gast / 24 * 2 pi]. *)
Definition TAU : R := 2 * PI.

(** Modelled from the spec: [constants.RAD2DEG] is not among the sources;
    it is the factor that takes radians to degrees. *)
Definition RAD2DEG : R := 180 / PI.

(** Modelled from the spec: [Angle.radians] is not among the sources; an
    angle given in degrees is read back in radians. *)
Definition radians (a : Angle) : R :=
  match angle_value a with
  | radians_kw x => x
  | degrees_kw x => x / RAD2DEG
  end.

(** The Python values that reach the arguments this module inspects with
    [is None], [isinstance] and [==]. *)
Inductive pyvalue : Type :=
| PyNone
| PyFloat (x : R)
| PyInt (n : Z)
| PyStr (s : string)
| PyJulianDate (t : JulianDate)
| PyAngle (a : Angle).

(** A NumPy boolean result: [array((False,))] is [BoolArray [false]], the
    comparison of a scalar is a [BoolScalar]. *)
Inductive ndbool : Type :=
| BoolArray (items : list bool)
| BoolScalar (b : bool).

(** [x >= y] on floats, as a boolean. *)
Definition Rgeb (x y : R) : bool := if Rge_dec x y then true else false.

(** ** class Topos *)

Record Topos : Type := mkTopos {
  latitude : Angle;
  longitude : Angle;
  elevation_m : R;
  up : vec;
  north : vec;
  west : vec
}.

(** ** class ICRS and its subclasses *)

Inductive PositionClass : Type :=
| ICRS
| Barycentric
| Astrometric
| Apparent
| Geocentric.

Section Positionlib.

(** The ephemeris object that [Topos.__call__] attaches to a position. *)
Context {Ephemeris : Type}.

Inductive Position : Type := mkPosition {
  class_of : PositionClass;
  jd : option JulianDate;
  position : vec;
  velocity : option vec;
  geocentric : bool;
  observer : option Position;
  topos : option Topos;
  altaz_rotation : option matrix;
  ephemeris : option Ephemeris;
  lighttime : option R
}.

(** [cls(position_AU, velocity_AU_per_d, jd)]: [ICRS.__init__], which every
    subclass inherits.  [geocentric] is the class attribute [True]. *)
Definition new_position (cls : PositionClass) (position_AU : vec)
    (velocity_AU_per_d : option vec) (jd_ : option JulianDate) : Position :=
  mkPosition cls jd_ position_AU velocity_AU_per_d true
    None None None None None.

(** [a.observer = o]. *)
Definition set_observer (a o : Position) : Position :=
  mkPosition (class_of a) (jd a) (position a) (velocity a) (geocentric a)
    (Some o) (topos a) (altaz_rotation a) (ephemeris a) (lighttime a).

(** A target of [Geocentric.observe]: [gcrs] is [None] when the object has
    no such attribute, [Some None] when the attribute holds Python's
    [None], and [Some (Some f)] when it is callable. *)
Record Body : Type := mkBody {
  gcrs : option (option (option JulianDate -> result Position))
}.

(** The collaborators. *)
Variable to_polar : vec -> R * R * R.
Variable rot_z : R -> matrix.
Variable compute_limb_angle : vec -> vec -> R * R.
Variable refract : R -> pyvalue -> pyvalue -> R.
Variable add_deflection : vec -> vec -> Ephemeris -> R -> ndbool -> vec.
Variable add_aberration : vec -> vec -> R -> vec.
Variable JulianDate_tt : R -> JulianDate.
Variable _interpret_ltude : string -> string -> string -> string -> result Angle.

(** *** ICRS.__sub__ *)

Definition ICRS_sub (self body : Position) : Position :=
  let p := sub (position self) (position body) in
  let v :=
    match velocity self with
    | None => None
    | Some self_v =>
        match velocity body with
        | None => None
        | Some body_v => Some (sub body_v self_v)
        end
    end in
  new_position ICRS p v (jd self).

(** *** ICRS.distance *)

Definition distance (self : Position) : R := length_of (position self).

(** *** ICRS.radec *)

(** The text of the error; the source writes the word date between double
    quotes. *)
Definition radec_message : string :=
  "the epoch= must be a Julian date, a floating point Terrestrial Time (TT), or the string 'date' for epoch-of-date".

(** The chain of [isinstance] tests: the value [epoch] holds afterwards,
    [None] being Python's [None]. *)
Definition radec_epoch (self : Position) (epoch : pyvalue)
  : result (option JulianDate) :=
  match epoch with
  | PyJulianDate t => Ok (Some t)
  | PyFloat x => Ok (Some (JulianDate_tt x))
  | PyStr s =>
      if String.eqb s "date" then Ok (jd self)
      else Raise (ValueError radec_message)
  | _ => Raise (ValueError radec_message)
  end.

(** The last two statements of [radec]: [to_polar], then the tuple
    [(Angle(radians=ra, preference='hours'), Angle(radians=dec,
    signed=True), Distance(r_AU))]. *)
Definition radec_of (position_AU : vec) : Angle * Angle * R :=
  let '(r_AU, dec, ra) := to_polar position_AU in
  (mkAngle (radians_kw ra) true false,
   mkAngle (radians_kw dec) false true,
   r_AU).

Definition radec (self : Position) (epoch : pyvalue)
  : result (Angle * Angle * R) :=
  position_AU <-
    match epoch with
    | PyNone => Ok (position self)
    | _ =>
        epoch_ <- radec_epoch self epoch ;;
        m <- getattr "M" (option_map M epoch_) ;;
        Ok (mat_vec m (position self))
    end ;;
  Ok (radec_of position_AU).

(** *** Topos.__init__ *)

Definition latitude_message : string :=
  "please provide either latitude_degrees=<float> or latitude=<skyfield.units.Angle object> with north being positive".

Definition longitude_message : string :=
  "please provide either longitude_degrees=<float> or longitude=<skyfield.units.Angle object> with east being positive".

Definition Topos_init (latitude_ longitude_ : pyvalue)
    (latitude_degrees longitude_degrees : option R) (elevation_m_ : R)
  : result Topos :=
  lat_angle <-
    match latitude_degrees with
    | Some d => Ok (Angle_degrees d)
    | None =>
        match latitude_ with
        | PyStr s => _interpret_ltude s "latitude" "N" "S"
        | PyAngle a => Ok a
        | _ => Raise (TypeError latitude_message)
        end
    end ;;
  lon_angle <-
    match longitude_degrees with
    | Some d => Ok (Angle_degrees d)
    | None =>
        match longitude_ with
        | PyStr s => _interpret_ltude s "longitude" "E" "W"
        | PyAngle a => Ok a
        | _ => Raise (TypeError longitude_message)
        end
    end ;;
  let lat := radians lat_angle in
  let lon := radians lon_angle in
  let sinlat := sin lat in
  let coslat := cos lat in
  let sinlon := sin lon in
  let coslon := cos lon in
  Ok (mkTopos lat_angle lon_angle elevation_m_
        (coslat * coslon, coslat * sinlon, sinlat)
        (- sinlat * coslon, - sinlat * sinlon, coslat)
        (sinlon, - coslon, 0.0)).

(** *** Astrometric.apparent *)

Definition include_earth_deflection (observer_ : Position)
    (position_AU : vec) : ndbool :=
  if geocentric observer_ then BoolArray [false]
  else
    let '(limb_angle, nadir_angle) :=
      compute_limb_angle position_AU (position observer_) in
    BoolScalar (Rgeb limb_angle 0.8).

Definition apparent (self : Position) : result Position :=
  let jd_ := jd self in
  let position_AU := position self in
  observer_ <- getattr "observer" (observer self) ;;
  let flag := include_earth_deflection observer_ position_AU in
  ephemeris_ <- getattr "ephemeris" (ephemeris observer_) ;;
  tdb_ <- getattr "tdb" (option_map tdb jd_) ;;
  let position_AU :=
    add_deflection position_AU (position observer_) ephemeris_ tdb_ flag in
  observer_v <- getattr "AU_per_d" (velocity observer_) ;;
  lighttime_ <- getattr "lighttime" (lighttime self) ;;
  let position_AU := add_aberration position_AU observer_v lighttime_ in
  Ok (set_observer (new_position Apparent position_AU None jd_) observer_).

(** *** Apparent.altaz *)

Definition altaz_message : string :=
  "to compute an apparent position, you must observe from a specific Earth location that you specify using a Topos instance".

(** The body of the [try]: [self.observer.topos] and
    [self.observer.altaz_rotation]. *)
Definition altaz_context (self : Position) : result (Topos * matrix) :=
  except_AttributeError
    (o1 <- getattr "observer" (observer self) ;;
     topos_ <- getattr "topos" (topos o1) ;;
     o2 <- getattr "observer" (observer self) ;;
     R_ <- getattr "altaz_rotation" (altaz_rotation o2) ;;
     Ok (topos_, R_))
    (ValueError altaz_message).

Definition altaz (self : Position) (temperature_C pressure_mbar : pyvalue)
  : result (Angle * Angle * R) :=
  ' (topos_, R_) <- altaz_context self ;;
  let position_AU := mat_vec R_ (position self) in
  let '(r_AU, alt, az) := to_polar position_AU in
  let alt_ :=
    match temperature_C with
    | PyNone => Angle_radians alt
    | _ =>
        let temperature_C :=
          match temperature_C with
          | PyStr s => if String.eqb s "standard" then PyFloat 10.0
                       else temperature_C
          | _ => temperature_C
          end in
        let pressure_mbar :=
          match pressure_mbar with
          | PyStr s =>
              if String.eqb s "standard"
              then PyFloat (1010.0 * exp (- elevation_m topos_ / 9.1e3))
              else pressure_mbar
          | _ => pressure_mbar
          end in
        Angle_degrees (refract (alt * RAD2DEG) temperature_C pressure_mbar)
    end in
  Ok (alt_, Angle_radians az, r_AU).

(** *** Geocentric.observe *)

Definition observe_message : string :=
  "currently a Geocentric location can only observe an object that can generate a GCRS position through a .gcrs() method".

Definition Geocentric_observe (self : Position) (other : Body)
  : result Position :=
  gcrs_method <- getattr "gcrs" (gcrs other) ;;
  match gcrs_method with
  | None => Raise (ValueError observe_message)
  | Some method =>
      g <- method (jd self) ;;
      let p := sub (position g) (position self) in
      g_v <- getattr "AU_per_d" (velocity g) ;;
      self_v <- getattr "AU_per_d" (velocity self) ;;
      let v := sub g_v self_v in
      Ok (set_observer (new_position Apparent p (Some v) (jd self)) self)
  end.

(** *** ITRF_to_GCRS *)

Definition ITRF_to_GCRS (jd_ : JulianDate) (rITRF : vec) : vec :=
  let spin := rot_z (gast jd_ * TAU / 24.0) in
  let position_ := mat_vec spin rITRF in
  mat_vec (MT jd_) position_.

(** The same two rotations with the field [M] in place of [MT]: the reading
    of the specification that names the last matrix [M]. *)
Definition ITRF_to_GCRS_by_M (jd_ : JulianDate) (rITRF : vec) : vec :=
  mat_vec (M jd_) (mat_vec (rot_z (gast jd_ / 24 * (2 * PI))) rITRF).

(** *** The epoch forms of radec *)

(** The epoch forms that [radec] lets through its [isinstance] chain: a
    [JulianDate], a [float], and the string [date]. *)
Definition epoch_accepted (epoch : pyvalue) : bool :=
  match epoch with
  | PyJulianDate _ => true
  | PyFloat _ => true
  | PyStr s => String.eqb s "date"
  | _ => false
  end.

End Positionlib.

(** ** Sample collaborators and sample objects

    Closed values at which the theorems below are evaluated. *)

(** Modelled from the spec: [functions.rot_z] is not among the sources; it
    is the rotation about the polar axis by the given angle. *)
Definition rot_z_model (theta : R) : matrix :=
  ((cos theta, - sin theta, 0),
   (sin theta, cos theta, 0),
   (0, 0, 1)).

(** Stand-ins for the other collaborators.  [sample_to_polar] returns the
    three components as they are, [sample_limb_angle] puts every body on
    the 0.8 boundary, [sample_refract] adds one degree, the two relativity
    kernels leave the position alone, and [sample_JulianDate_tt] has the
    identity for both matrices. *)
Definition identity : matrix := ((1, 0, 0), (0, 1, 0), (0, 0, 1)).

Definition sample_to_polar (v : vec) : R * R * R := v.

Definition sample_limb_angle (p o : vec) : R * R := (0.8, 0).

Definition sample_refract (alt : R) (temperature_C pressure_mbar : pyvalue)
  : R := alt + 1.

Definition sample_add_deflection (p o : vec) (eph : unit) (tdb_ : R)
    (flag : ndbool) : vec := p.

Definition sample_add_aberration (p v : vec) (lt : R) : vec := p.

Definition sample_JulianDate_tt (x : R) : JulianDate :=
  mkJulianDate x x 0 identity identity.

Definition sample_interpret_ltude (s name pos neg : string) : result Angle :=
  Raise (ValueError name).

(** A time reference whose [M] is a quarter turn about the polar axis, and
    whose [MT] is the transpose of [M]. *)
Definition quarter_turn : matrix := ((0, -1, 0), (1, 0, 0), (0, 0, 1)).

Definition sample_jd : JulianDate :=
  mkJulianDate 2451545 2451545 0 quarter_turn (transpose quarter_turn).

(** Two positions at the same time, both with a velocity. *)
Definition sample_A : @Position unit :=
  new_position ICRS (1, 2, 3) (Some (1, 2, 3)) (Some sample_jd).

Definition sample_B : @Position unit :=
  new_position ICRS (7, 5, 3) (Some (4, 5, 6)) (Some sample_jd).

(** [ICRS([1.0, 1.0, 1.0])]: no velocity, no time. *)
Definition sample_timeless : @Position unit :=
  new_position ICRS (1, 1, 1) None None.

(** A Topos at the north pole on the antimeridian at elevation 0; an
    observer in the state [Topos.__call__] leaves it in (not geocentric,
    with [topos], [ephemeris] and [altaz_rotation] attached) and a
    geocentric one; an astrometric position for each; and an apparent
    position seen from the Topos. *)
Definition sample_topos : Topos :=
  mkTopos (Angle_degrees 90) (Angle_degrees 180) 0
    (cos (90 / RAD2DEG) * cos (180 / RAD2DEG),
     cos (90 / RAD2DEG) * sin (180 / RAD2DEG),
     sin (90 / RAD2DEG))
    (- sin (90 / RAD2DEG) * cos (180 / RAD2DEG),
     - sin (90 / RAD2DEG) * sin (180 / RAD2DEG),
     cos (90 / RAD2DEG))
    (sin (180 / RAD2DEG), - cos (180 / RAD2DEG), 0.0).

Definition sample_observer : @Position unit :=
  mkPosition Barycentric (Some sample_jd) (1, 0, 0) (Some (0, 1, 0)) false
    None (Some sample_topos) (Some identity) (Some Datatypes.tt) None.

Definition sample_geocentric_observer : @Position unit :=
  mkPosition Barycentric (Some sample_jd) (1, 0, 0) (Some (0, 1, 0)) true
    None None None (Some Datatypes.tt) None.

Definition sample_astrometric : @Position unit :=
  mkPosition Astrometric (Some sample_jd) (4, 5, 6) None true
    (Some sample_observer) None None None (Some 0).

Definition sample_astrometric_geocentric : @Position unit :=
  mkPosition Astrometric (Some sample_jd) (4, 5, 6) None true
    (Some sample_geocentric_observer) None None None (Some 0).

Definition sample_apparent : @Position unit :=
  set_observer (new_position Apparent (4, 5, 6) None (Some sample_jd))
    sample_observer.

(** [Apparent([4.0, 5.0, 6.0])], built by hand: no observer. *)
Definition sample_apparent_alone : @Position unit :=
  new_position Apparent (4, 5, 6) None None.

(** ** The rest of the module: display, ecliptic coordinates, and the
    positions that a Topos generates *)

(** [a + b] and [-a] on arrays of three components. *)
Definition add (a b : vec) : vec :=
  let '(a0, a1, a2) := a in
  let '(b0, b1, b2) := b in
  (a0 + b0, a1 + b1, a2 + b2).

Definition neg (a : vec) : vec :=
  let '(a0, a1, a2) := a in
  (- a0, - a1, - a2).

(** [einsum('ij...,jk...->ik...', a, b)]: the matrix product. *)
Definition mat_mul (a b : matrix) : matrix :=
  let '(r0, r1, r2) := a in
  let bT := transpose b in
  (mat_vec bT r0, mat_vec bT r1, mat_vec bT r2).

(** [einsum('ij...,jk...->ki...', a, b)]: the same sums, stored with the
    two output indices exchanged. *)
Definition mat_mul_ki (a b : matrix) : matrix := transpose (mat_mul a b).

(** The vector product, and what it is for a matrix to have its transpose
    as inverse; both are used to state properties only. *)
Definition cross (a b : vec) : vec :=
  let '(a0, a1, a2) := a in
  let '(b0, b1, b2) := b in
  (a1 * b2 - a2 * b1, a2 * b0 - a0 * b2, a0 * b1 - a1 * b0).

Definition orthogonal (m : matrix) : Prop :=
  mat_mul m (transpose m) = identity /\ mat_mul (transpose m) m = identity.

Section Observers.

Context {Ephemeris : Type}.

(** The collaborators: [functions.to_polar], [functions.rot_z],
    [earthlib.terra], the call [ephemeris.earth(jd)], the matrix
    [constants.rotation_to_ecliptic], and the conversion that
    [Distance(m=x).AU] performs. *)
Variable to_polar : vec -> R * R * R.
Variable rot_z : R -> matrix.
Variable terra : R -> R -> R -> R -> vec * vec.
Variable earth : Ephemeris -> JulianDate -> @Position Ephemeris.
Variable rotation_to_ecliptic : matrix.
Variable AU_of_m : R -> R.

(** *** ICRS.__repr__ *)

Definition class_name (cls : PositionClass) : string :=
  match cls with
  | ICRS => "ICRS"
  | Barycentric => "Barycentric"
  | Astrometric => "Astrometric"
  | Apparent => "Apparent"
  | Geocentric => "Geocentric"
  end.

Definition repr (self : @Position Ephemeris) : string :=
  ("<" ++ class_name (class_of self) ++ " position x,y,z AU"
   ++ match velocity self with
      | None => ""
      | Some _ => " and velocity xdot,ydot,zdot AU/day"
      end
   ++ match jd self with
      | None => ""
      | Some _ => " at date jd"
      end
   ++ ">")%string.

(** *** ICRS.ecliptic_position and ICRS.ecliptic_latlon *)

Definition ecliptic_position (self : @Position Ephemeris) : vec :=
  mat_vec rotation_to_ecliptic (position self).

Definition ecliptic_latlon (self : @Position Ephemeris) : Angle * Angle * R :=
  let vector := mat_vec rotation_to_ecliptic (position self) in
  let '(d, lat, lon) := to_polar vector in
  (mkAngle (radians_kw lat) false true, Angle_radians lon, d).

(** *** Topos._position_and_velocity *)

Definition _position_and_velocity (self : Topos) (jd_ : JulianDate)
  : vec * vec :=
  let '(pos, vel) :=
    terra (radians (latitude self)) (radians (longitude self))
      (AU_of_m (elevation_m self)) (gast jd_) in
  let pos := mat_vec (MT jd_) pos in
  let vel := mat_vec (MT jd_) vel in
  (pos, vel).

(** *** Topos._altaz_rotation *)

Definition _altaz_rotation (self : Topos) (jd_ : JulianDate) : matrix :=
  let spin := rot_z (gast jd_ * TAU / 24.0) in
  let u := transpose (north self, neg (west self), up self) in
  let spin_u := mat_mul_ki spin u in
  mat_mul spin_u (M jd_).

(** *** Topos.__call__ and Topos.gcrs

    The attribute [ephemeris] of a Topos is attached from outside, after
    construction: it is the argument [self_ephemeris], [None] when nothing
    was attached.  The time is the [JulianDate] that the decorator
    [takes_julian_date] hands to the method.  The attributes [rGCRS] and
    [vGCRS], which [__call__] alone sets and nothing in the module reads,
    are returned beside the position. *)

Record Located : Type := mkLocated {
  located : @Position Ephemeris;
  rGCRS : vec;
  vGCRS : vec
}.

Definition Topos_call (self : Topos) (self_ephemeris : option Ephemeris)
    (jd_ : JulianDate) : result Located :=
  ephemeris_ <- getattr "ephemeris" self_ephemeris ;;
  let e := earth ephemeris_ jd_ in
  let '(tpos_AU, tvel_AU_per_d) := _position_and_velocity self jd_ in
  e_v <- getattr "AU_per_d" (velocity e) ;;
  Ok (mkLocated
        (mkPosition Barycentric (Some jd_)
           (add (position e) tpos_AU) (Some (add e_v tvel_AU_per_d))
           false None (Some self) (Some (_altaz_rotation self jd_))
           (Some ephemeris_) None)
        tpos_AU tvel_AU_per_d).

Definition Topos_gcrs (self : Topos) (self_ephemeris : option Ephemeris)
    (jd_ : JulianDate) : result (@Position Ephemeris) :=
  let '(tpos_AU, tvel_AU_per_d) := _position_and_velocity self jd_ in
  ephemeris_ <- getattr "ephemeris" self_ephemeris ;;
  Ok (mkPosition Geocentric (Some jd_) tpos_AU (Some tvel_AU_per_d)
        true None (Some self) (Some (_altaz_rotation self jd_))
        (Some ephemeris_) None).

(** *** Barycentric.observe *)

(** A target of [Barycentric.observe]: its method [_observe_from_bcrs],
    [None] when the object has none. *)
Record Target : Type := mkTarget {
  _observe_from_bcrs :
    option (@Position Ephemeris -> result (@Position Ephemeris))
}.

Definition Barycentric_observe (self : @Position Ephemeris) (body : Target)
  : result (@Position Ephemeris) :=
  method <- getattr "_observe_from_bcrs" (_observe_from_bcrs body) ;;
  method self.

End Observers.

(** The angle that the constructor of [Topos] takes for one coordinate,
    used to state properties: the angle of [degrees] when that is given,
    whatever the argument; otherwise the argument itself when it is an
    Angle, or what [interpret] returns for it when it is a string. *)
Definition ltude_given
    (interpret : string -> string -> string -> string -> result Angle)
    (degrees : option R) (arg : pyvalue) (name pos neg : string)
    (a : Angle) : Prop :=
  match degrees with
  | Some d => a = Angle_degrees d
  | None =>
      arg = PyAngle a
      \/ exists s, arg = PyStr s /\ interpret s name pos neg = Ok a
  end.

(** Further sample collaborators: [sample_terra] puts every Topos at
    [(1, 0, 0)] of the Earth-fixed frame with velocity [(0, 1, 0)],
    [sample_earth] puts the Earth at [(10, 20, 30)] with velocity
    [(1, 1, 1)], and the sample target is at [(4, 5, 6)] with velocity
    [(0, 0, 1)] at every time. *)
Definition sample_terra (lat lon elevation_AU gast_ : R) : vec * vec :=
  ((1, 0, 0), (0, 1, 0)).

Definition sample_earth (eph : unit) (t : JulianDate) : @Position unit :=
  new_position Barycentric (10, 20, 30) (Some (1, 1, 1)) (Some t).

Definition sample_AU_of_m (x : R) : R := x / 149597870700.

Definition sample_body : @Body unit :=
  mkBody
    (Some (Some (fun t =>
       Ok (new_position Geocentric (4, 5, 6) (Some (0, 0, 1)) t)))).

(** [Geocentric([1.0, 0.0, 0.0])]: a geocentric position without velocity. *)
Definition sample_geocentric_still : @Position unit :=
  new_position Geocentric (1, 0, 0) None None.

(** What [sample_topos(sample_jd)] and [sample_topos.gcrs(sample_jd)]
    return with the sample collaborators, and an astrometric position
    observed from each. *)
Definition sample_located : @Located unit :=
  mkLocated
    (mkPosition Barycentric (Some sample_jd)
       (add (10, 20, 30) (mat_vec (MT sample_jd) (1, 0, 0)))
       (Some (add (1, 1, 1) (mat_vec (MT sample_jd) (0, 1, 0))))
       false None (Some sample_topos)
       (Some (_altaz_rotation rot_z_model sample_topos sample_jd))
       (Some Datatypes.tt) None)
    (mat_vec (MT sample_jd) (1, 0, 0))
    (mat_vec (MT sample_jd) (0, 1, 0)).

Definition sample_gcrs : @Position unit :=
  mkPosition Geocentric (Some sample_jd)
    (mat_vec (MT sample_jd) (1, 0, 0))
    (Some (mat_vec (MT sample_jd) (0, 1, 0)))
    true None (Some sample_topos)
    (Some (_altaz_rotation rot_z_model sample_topos sample_jd))
    (Some Datatypes.tt) None.

Definition sample_astrometric_located : @Position unit :=
  mkPosition Astrometric (Some sample_jd) (4, 5, 6) None true
    (Some (located sample_located)) None None None (Some 0).

Definition sample_astrometric_gcrs : @Position unit :=
  mkPosition Astrometric (Some sample_jd) (4, 5, 6) None true
    (Some sample_gcrs) None None None (Some 0).

Definition sample_gcrs_method (t : option JulianDate)
  : result (@Position unit) :=
  Ok (new_position Geocentric (4, 5, 6) (Some (0, 0, 1)) t).

(** ** Properties *)

Section Properties.

Context {Ephemeris : Type}.

Variable to_polar : vec -> R * R * R.
Variable rot_z : R -> matrix.
Variable compute_limb_angle : vec -> vec -> R * R.
Variable refract : R -> pyvalue -> pyvalue -> R.
Variable add_deflection : vec -> vec -> Ephemeris -> R -> ndbool -> vec.
Variable add_aberration : vec -> vec -> R -> vec.
Variable JulianDate_tt : R -> JulianDate.
Variable _interpret_ltude : string -> string -> string -> string -> result Angle.

Local Abbreviation Position := (@Position Ephemeris).
Local Abbreviation radec_of := (radec_of to_polar).
Local Abbreviation radec_epoch := (radec_epoch JulianDate_tt).
Local Abbreviation radec := (radec to_polar JulianDate_tt).
Local Abbreviation Topos_init := (Topos_init _interpret_ltude).
Local Abbreviation include_earth_deflection :=
  (include_earth_deflection compute_limb_angle).
Local Abbreviation apparent :=
  (apparent compute_limb_angle add_deflection add_aberration).
Local Abbreviation altaz := (altaz to_polar refract).
Local Abbreviation ITRF_to_GCRS := (ITRF_to_GCRS rot_z).
Local Abbreviation ITRF_to_GCRS_by_M := (ITRF_to_GCRS_by_M rot_z).


(** *** Arithmetic of vectors *)

Lemma vec_eq_inv (a0 a1 a2 b0 b1 b2 : R) :
  (a0, a1, a2) = (b0, b1, b2) -> a0 = b0 /\ a1 = b1 /\ a2 = b2.
Proof. intros H; inversion H; auto. Qed.

Lemma vec_eq_intro (a0 a1 a2 b0 b1 b2 : R) :
  a0 = b0 -> a1 = b1 -> a2 = b2 -> (a0, a1, a2) = (b0, b1, b2).
Proof. intros -> -> ->; reflexivity. Qed.

Lemma sub_sub_cancel (a b : vec) : sub a (sub a b) = b.
Proof.
  destruct a as [[a0 a1] a2], b as [[b0 b1] b2]; unfold sub.
  apply vec_eq_intro; ring.
Qed.

Lemma Rgeb_true_iff (x y : R) : Rgeb x y = true <-> x >= y.
Proof.
  unfold Rgeb; destruct (Rge_dec x y) as [Hge | Hlt]; split; intros H;
    try reflexivity; try assumption; try discriminate; contradiction.
Qed.

Lemma Rgeb_false_iff (x y : R) : Rgeb x y = false <-> x < y.
Proof.
  unfold Rgeb; destruct (Rge_dec x y) as [Hge | Hlt]; split; intros H;
    try reflexivity; try discriminate.
  - lra.
  - apply Rnot_ge_lt; assumption.
Qed.

(** *** ICRS.__sub__ *)

(** C4.  The difference [A - B] is a fresh ICRS position at the time of
    [A]: its position vector is [A.position - B.position]; its velocity is
    [B.velocity - A.velocity] when both operands carry one, and is absent
    as soon as one of them has none. *)
Theorem ICRS_sub_spec (A B : Position) :
  position (ICRS_sub A B) = sub (position A) (position B)
  /\ (forall a_v b_v,
        velocity A = Some a_v -> velocity B = Some b_v ->
        velocity (ICRS_sub A B) = Some (sub b_v a_v))
  /\ (velocity A = None \/ velocity B = None ->
      velocity (ICRS_sub A B) = None)
  /\ jd (ICRS_sub A B) = jd A
  /\ class_of (ICRS_sub A B) = ICRS
  /\ observer (ICRS_sub A B) = None.
Proof.
  unfold ICRS_sub, new_position; cbn [position velocity jd class_of observer].
  repeat split.
  - intros a_v b_v Ha Hb; rewrite Ha, Hb; reflexivity.
  - intros [Ha | Hb].
    + rewrite Ha; reflexivity.
    + rewrite Hb; destruct (velocity A); reflexivity.
Qed.

(** What the two subtractions of [A - (A - B)] produce: the position of
    [B], and the velocity [(B.velocity - A.velocity) - A.velocity]. *)
Lemma ICRS_sub_twice (A B : Position) (a_v b_v : vec) :
  velocity A = Some a_v -> velocity B = Some b_v ->
  position (ICRS_sub A (ICRS_sub A B)) = position B
  /\ velocity (ICRS_sub A (ICRS_sub A B)) = Some (sub (sub b_v a_v) a_v).
Proof.
  intros Ha Hb; unfold ICRS_sub, new_position; cbn [position velocity].
  rewrite Ha, Hb; split; [apply sub_sub_cancel | reflexivity].
Qed.

(** *** ICRS.radec *)

Lemma radec_epoch_accepted (self : Position) (epoch : pyvalue) :
  epoch_accepted epoch = true ->
  exists e, radec_epoch self epoch = Ok e.
Proof.
  destruct epoch as [ | x | n | s | t | a]; cbn; try discriminate.
  - intros _; eexists; reflexivity.
  - intros H; rewrite H; eexists; reflexivity.
  - intros _; eexists; reflexivity.
Qed.

Lemma radec_epoch_rejected (self : Position) (epoch : pyvalue) :
  epoch_accepted epoch = false ->
  radec_epoch self epoch = Raise (ValueError radec_message).
Proof.
  destruct epoch as [ | x | n | s | t | a]; cbn; try discriminate;
    try reflexivity.
  intros H; rewrite H; reflexivity.
Qed.

(** C5, as the code has it.  [radec] raises its [ValueError] exactly when
    the epoch is not [None] and is none of a [JulianDate], a [float] and
    the string [date]; an integer epoch is among the rejected ones.  When
    the epoch is a [JulianDate], a [float], or [date] on a position that
    carries a time, the call returns the polar decomposition of the
    position rotated by the matrix [M] of that epoch; without an epoch it
    returns the decomposition of the position itself.  With [date] on a
    position that has no time the call does not return: it raises an
    [AttributeError]. *)
Theorem radec_epoch_spec (self : Position) (epoch : pyvalue) :
  (radec self epoch = Raise (ValueError radec_message)
   <-> epoch <> PyNone /\ epoch_accepted epoch = false)
  /\ (forall n, epoch = PyInt n ->
      radec self epoch = Raise (ValueError radec_message))
  /\ (forall t, epoch = PyJulianDate t ->
      radec self epoch = Ok (radec_of (mat_vec (M t) (position self))))
  /\ (forall x, epoch = PyFloat x ->
      radec self epoch
      = Ok (radec_of (mat_vec (M (JulianDate_tt x)) (position self))))
  /\ (forall t, epoch = PyStr "date" -> jd self = Some t ->
      radec self epoch = Ok (radec_of (mat_vec (M t) (position self))))
  /\ (epoch = PyNone -> radec self epoch = Ok (radec_of (position self)))
  /\ (epoch = PyStr "date" -> jd self = None ->
      radec self epoch = Raise (AttributeError "M")
      /\ is_Ok (radec self epoch) = false).
Proof.
  split; [ | split; [ | split; [ | split; [ | split; [ | split ] ] ] ] ].
  - split.
    + intros H; destruct epoch as [ | x | n | s | t | a]; cbn in *;
        try discriminate; try (split; [discriminate | reflexivity]).
      split; [discriminate | ].
      unfold radec, radec_epoch in H.
      destruct (String.eqb s "date"); [ | reflexivity].
      destruct (jd self); cbn in H; discriminate H.
    + intros [Hnone Hacc].
      unfold radec.
      rewrite (radec_epoch_rejected self epoch Hacc).
      destruct epoch; try reflexivity. congruence.
  - intros n ->; reflexivity.
  - intros t ->; reflexivity.
  - intros x ->; reflexivity.
  - intros t -> Hjd; unfold radec; cbn. rewrite Hjd; reflexivity.
  - intros ->; reflexivity.
  - intros -> Hjd; unfold radec; cbn; rewrite Hjd; split; reflexivity.
Qed.

(** C10.  On a position built without a time, [radec(epoch='date')] does
    not raise the [ValueError] of the module: [date] resolves to the
    absent time and reading its matrix raises [AttributeError].  On a
    position that carries a time the same call returns. *)
Theorem radec_date_without_time (self : Position) :
  (jd self = None ->
   radec self (PyStr "date") = Raise (AttributeError "M")
   /\ is_ValueError (radec self (PyStr "date")) = false)
  /\ (forall t, jd self = Some t ->
      radec self (PyStr "date")
      = Ok (radec_of (mat_vec (M t) (position self)))).
Proof.
  split.
  - intros H; unfold radec; cbn; rewrite H; cbn; split; reflexivity.
  - intros t H; unfold radec; cbn; rewrite H; reflexivity.
Qed.

(** *** Apparent.altaz *)

Lemma altaz_context_resolved (self o : Position) (tp : Topos) (R_ : matrix) :
  observer self = Some o -> topos o = Some tp -> altaz_rotation o = Some R_ ->
  altaz_context self = Ok (tp, R_).
Proof.
  intros Ho Ht Hr; unfold altaz_context; rewrite Ho; cbn.
  rewrite Ht; cbn; rewrite Hr; reflexivity.
Qed.

Lemma altaz_context_unresolved (self : Position) :
  observer self = None
  \/ (exists o, observer self = Some o
                /\ (topos o = None \/ altaz_rotation o = None)) ->
  altaz_context self = Raise (ValueError altaz_message).
Proof.
  intros [Ho | [o [Ho [Ht | Hr]]]]; unfold altaz_context; rewrite Ho; cbn.
  - reflexivity.
  - rewrite Ht; reflexivity.
  - rewrite Hr; destruct (topos o); reflexivity.
Qed.

(** C6.  When the position has no observer, or its observer has no
    [topos] or no [altaz_rotation], [altaz] raises the [ValueError] that
    asks for a Topos, whatever the temperature and the pressure; it
    returns no coordinate. *)
Theorem altaz_without_topos (self : Position)
    (temperature_C pressure_mbar : pyvalue) :
  observer self = None
  \/ (exists o, observer self = Some o
                /\ (topos o = None \/ altaz_rotation o = None)) ->
  altaz self temperature_C pressure_mbar = Raise (ValueError altaz_message)
  /\ is_Ok (altaz self temperature_C pressure_mbar) = false.
Proof.
  intros H; unfold altaz.
  rewrite (altaz_context_unresolved self H); split; reflexivity.
Qed.

(** The two substitutions of [altaz]: what a value becomes when the
    string [standard] stands for a default. *)
Lemma standard_substitution (v : pyvalue) (default : R) :
  exists v',
    match v with
    | PyStr s => if String.eqb s "standard" then PyFloat default else v
    | _ => v
    end = v'
    /\ (v = PyStr "standard" -> v' = PyFloat default)
    /\ (v <> PyStr "standard" -> v' = v).
Proof.
  destruct v as [ | x | n | s | t | a];
    try (eexists; split; [reflexivity | split;
           [intros H; discriminate H | reflexivity] ]).
  destruct (String.eqb s "standard") eqn:E.
  - apply String.eqb_eq in E; subst s.
    exists (PyFloat default); split; [reflexivity | split].
    + reflexivity.
    + intros H; exfalso; apply H; reflexivity.
  - exists (PyStr s); split; [reflexivity | split].
    + intros H; injection H as ->; rewrite String.eqb_refl in E.
      discriminate E.
    + reflexivity.
Qed.

(** With any temperature other than [None], [altaz] goes through
    [refract]. *)
Lemma altaz_with_temperature (self o : Position) (tp : Topos) (R_ : matrix)
    (r_AU alt az : R) (temperature_C pressure_mbar : pyvalue) :
  observer self = Some o -> topos o = Some tp -> altaz_rotation o = Some R_ ->
  to_polar (mat_vec R_ (position self)) = (r_AU, alt, az) ->
  temperature_C <> PyNone ->
  exists t' p',
    altaz self temperature_C pressure_mbar
    = Ok (Angle_degrees (refract (alt * RAD2DEG) t' p'),
          Angle_radians az, r_AU)
    /\ (temperature_C = PyStr "standard" -> t' = PyFloat 10)
    /\ (temperature_C <> PyStr "standard" -> t' = temperature_C)
    /\ (pressure_mbar = PyStr "standard" ->
        p' = PyFloat (1010 * exp (- elevation_m tp / 9100)))
    /\ (pressure_mbar <> PyStr "standard" -> p' = pressure_mbar).
Proof.
  intros Ho Ht Hr Hp Hgiven.
  destruct (standard_substitution temperature_C 10.0) as (t' & Et & Ht1 & Ht2).
  destruct (standard_substitution pressure_mbar
              (1010.0 * exp (- elevation_m tp / 9.1e3)))
    as (p' & Ep & Hp1 & Hp2).
  exists t', p'.
  split; [ | split; [ | split; [ | split ] ] ].
  - unfold altaz; rewrite (altaz_context_resolved self o tp R_ Ho Ht Hr).
    cbn [bind]; rewrite Hp.
    destruct temperature_C as [ | x | n | s | t | a];
      [exfalso; apply Hgiven; reflexivity | | | | | ];
      cbv zeta; rewrite Ep; try rewrite Et; try rewrite <- Et; reflexivity.
  - intros H; rewrite (Ht1 H); f_equal; lra.
  - exact Ht2.
  - intros H; rewrite (Hp1 H); f_equal.
    replace 9.1e3 with 9100 by lra; replace 1010.0 with 1010 by lra.
    reflexivity.
  - exact Hp2.
Qed.

(** C7.  With an observer that carries a Topos and a horizon rotation:
    without a temperature the altitude is the one [to_polar] returns,
    wrapped as radians, and [refract] does not appear; with a temperature
    the string [standard] becomes 10 degrees, the pressure [standard]
    becomes [1010 * exp (- elevation_m / 9100)], which is 1010 at
    elevation 0, and the altitude is the result of [refract] on the
    altitude in degrees.  This holds for every temperature other than
    [None] and every pressure: a value that is not the string [standard]
    reaches [refract] as it was given. *)
Theorem altaz_refraction (self o : Position) (tp : Topos) (R_ : matrix)
    (r_AU alt az : R) :
  observer self = Some o -> topos o = Some tp -> altaz_rotation o = Some R_ ->
  to_polar (mat_vec R_ (position self)) = (r_AU, alt, az) ->
  (forall pressure_mbar,
      altaz self PyNone pressure_mbar
      = Ok (Angle_radians alt, Angle_radians az, r_AU))
  /\ altaz self (PyStr "standard") (PyStr "standard")
     = Ok (Angle_degrees
             (refract (alt * RAD2DEG) (PyFloat 10)
                (PyFloat (1010 * exp (- elevation_m tp / 9100)))),
           Angle_radians az, r_AU)
  /\ (forall x,
      altaz self (PyFloat x) (PyStr "standard")
      = Ok (Angle_degrees
              (refract (alt * RAD2DEG) (PyFloat x)
                 (PyFloat (1010 * exp (- elevation_m tp / 9100)))),
            Angle_radians az, r_AU))
  /\ (forall x y,
      altaz self (PyFloat x) (PyFloat y)
      = Ok (Angle_degrees (refract (alt * RAD2DEG) (PyFloat x) (PyFloat y)),
            Angle_radians az, r_AU))
  /\ (elevation_m tp = 0 ->
      altaz self (PyStr "standard") (PyStr "standard")
      = Ok (Angle_degrees (refract (alt * RAD2DEG) (PyFloat 10) (PyFloat 1010)),
            Angle_radians az, r_AU))
  /\ (forall temperature_C pressure_mbar,
      temperature_C <> PyNone ->
      exists t' p',
        altaz self temperature_C pressure_mbar
        = Ok (Angle_degrees (refract (alt * RAD2DEG) t' p'),
              Angle_radians az, r_AU)
        /\ (temperature_C = PyStr "standard" -> t' = PyFloat 10)
        /\ (temperature_C <> PyStr "standard" -> t' = temperature_C)
        /\ (pressure_mbar = PyStr "standard" ->
            p' = PyFloat (1010 * exp (- elevation_m tp / 9100)))
        /\ (pressure_mbar <> PyStr "standard" -> p' = pressure_mbar)).
Proof.
  intros Ho Ht Hr Hp.
  assert (Hgen := fun t p =>
            altaz_with_temperature self o tp R_ r_AU alt az t p Ho Ht Hr Hp).
  assert (H10 : 10.0 = 10) by lra.
  assert (H1010 : forall e, 1010.0 * exp (- e / 9.1e3) = 1010 * exp (- e / 9100)).
  { intros e; replace 9.1e3 with 9100 by lra;
    replace 1010.0 with 1010 by lra; reflexivity. }
  unfold altaz; rewrite (altaz_context_resolved self o tp R_ Ho Ht Hr).
  cbn [bind]; rewrite Hp.
  split; [ | split; [ | split; [ | split; [ | split ] ] ] ].
  - intros pressure_mbar; reflexivity.
  - cbn. rewrite H10, H1010; reflexivity.
  - intros x; cbn. rewrite H1010; reflexivity.
  - intros x y; reflexivity.
  - intros He; cbn. rewrite H10, H1010, He.
    replace (- 0 / 9100) with 0 by lra.
    rewrite exp_0, Rmult_1_r; reflexivity.
  - intros temperature_C pressure_mbar Hgiven.
    destruct (Hgen temperature_C pressure_mbar Hgiven) as (t' & p' & Ha & Hrest).
    exists t', p'; split; [ | exact Hrest].
    rewrite <- Ha; unfold altaz.
    rewrite (altaz_context_resolved self o tp R_ Ho Ht Hr).
    cbn [bind]; rewrite Hp; reflexivity.
Qed.

(** *** Astrometric.apparent *)

(** C1.  On an astrometric position whose attributes are all present,
    [apparent] hands to [add_deflection] the flag
    [include_earth_deflection].  That flag is the all-[False] array when the
    observer is geocentric, whatever [compute_limb_angle] would return;
    for any other observer it is the comparison of the limb angle with
    0.8, true exactly when the limb angle is at least 0.8, the value 0.8
    included. *)
Theorem apparent_earth_deflection (self o : Position) (eph : Ephemeris)
    (t : JulianDate) (o_v : vec) (lt : R) :
  observer self = Some o -> ephemeris o = Some eph -> jd self = Some t ->
  velocity o = Some o_v -> lighttime self = Some lt ->
  let limb_angle := fst (compute_limb_angle (position self) (position o)) in
  let flag := include_earth_deflection o (position self) in
  apparent self
  = Ok (set_observer
          (new_position Apparent
             (add_aberration
                (add_deflection (position self) (position o) eph (tdb t) flag)
                o_v lt)
             None (Some t))
          o)
  /\ (geocentric o = true -> flag = BoolArray [false])
  /\ (geocentric o = false ->
      exists b, flag = BoolScalar b
                /\ (b = true <-> limb_angle >= 0.8)
                /\ (limb_angle = 0.8 -> b = true)).
Proof.
  intros Ho He Hj Hv Hl limb_angle flag; repeat split.
  - unfold apparent; rewrite Ho, Hj, Hl; cbn; rewrite He; cbn; rewrite Hv.
    reflexivity.
  - intros Hg; unfold flag, include_earth_deflection; rewrite Hg; reflexivity.
  - intros Hg; exists (Rgeb limb_angle 0.8).
    unfold flag, include_earth_deflection, limb_angle; rewrite Hg.
    destruct (compute_limb_angle (position self) (position o)) as [l n]; cbn.
    repeat split.
    + apply Rgeb_true_iff.
    + apply Rgeb_true_iff.
    + intros ->; apply Rgeb_true_iff; lra.
Qed.

(** *** Geocentric.observe *)

(** The [ValueError] of [observe] is raised for a target whose [gcrs]
    attribute exists and holds [None]. *)
Lemma Geocentric_observe_gcrs_None (self : Position) :
  Geocentric_observe self (mkBody (Some None))
  = Raise (ValueError observe_message).
Proof. reflexivity. Qed.

(** With a callable [gcrs] and velocities on both sides the result is the
    apparent position of the differences. *)
Lemma Geocentric_observe_ok (self g : Position) (self_v g_v : vec)
    (method : option JulianDate -> result Position) :
  method (jd self) = Ok g ->
  velocity g = Some g_v -> velocity self = Some self_v ->
  Geocentric_observe self (mkBody (Some (Some method)))
  = Ok (set_observer
          (new_position Apparent (sub (position g) (position self))
             (Some (sub g_v self_v)) (jd self))
          self).
Proof.
  intros Hm Hg Hs; unfold Geocentric_observe; cbn.
  rewrite Hm; cbn; rewrite Hg; cbn; rewrite Hs; reflexivity.
Qed.

(** C2, at the inputs where the code departs from it.  For a target with
    no [gcrs] attribute, [observe] stops at [getattr] with an
    [AttributeError]; the [ValueError] that describes the unsupported
    target is not the error it raises. *)
Theorem Geocentric_observe_without_gcrs (self : Position) :
  Geocentric_observe self (mkBody None) = Raise (AttributeError "gcrs")
  /\ Geocentric_observe self (mkBody None)
     <> Raise (ValueError observe_message).
Proof. split; [reflexivity | discriminate]. Qed.

(** *** ITRF_to_GCRS *)

Lemma sidereal_angle (g : R) : g * TAU / 24.0 = g / 24 * (2 * PI).
Proof. unfold TAU; replace 24.0 with 24 by lra; field. Qed.

(** C8, as the code has it.  [ITRF_to_GCRS] applies the rotation
    [rot_z] of angle [gast / 24 * 2 pi] to the vector, then the matrix
    [MT] of the time reference; the result is one vector, no velocity. *)
Theorem ITRF_to_GCRS_spec (jd_ : JulianDate) (rITRF : vec) :
  ITRF_to_GCRS jd_ rITRF
  = mat_vec (MT jd_) (mat_vec (rot_z (gast jd_ / 24 * (2 * PI))) rITRF).
Proof.
  unfold ITRF_to_GCRS; rewrite sidereal_angle; reflexivity.
Qed.

(** *** Topos.__init__ *)

Lemma Topos_init_frame (latitude_ longitude_ : pyvalue)
    (latitude_degrees longitude_degrees : option R) (elevation_m_ : R)
    (t : Topos) :
  Topos_init latitude_ longitude_ latitude_degrees longitude_degrees
    elevation_m_ = Ok t ->
  let lat := radians (latitude t) in
  let lon := radians (longitude t) in
  up t = (cos lat * cos lon, cos lat * sin lon, sin lat)
  /\ north t = (- sin lat * cos lon, - sin lat * sin lon, cos lat)
  /\ west t = (sin lon, - cos lon, 0).
Proof.
  unfold Topos_init; intros H.
  match type of H with
  | bind ?m _ = _ => destruct m as [lat_angle | e]; [ | discriminate H]
  end.
  cbn [bind] in H.
  match type of H with
  | bind ?m _ = _ => destruct m as [lon_angle | e]; [ | discriminate H]
  end.
  cbn [bind] in H; injection H as <-; cbn.
  repeat split. apply vec_eq_intro; try reflexivity; lra.
Qed.

(** C9.  The three vectors that the constructor of [Topos] computes are
    [up = (cos lat cos lon, cos lat sin lon, sin lat)],
    [north = (- sin lat cos lon, - sin lat sin lon, cos lat)] and
    [west = (sin lon, - cos lon, 0)]; each has length 1 and any two of
    them are orthogonal, for every latitude and longitude. *)
Theorem Topos_frame_orthonormal (latitude_ longitude_ : pyvalue)
    (latitude_degrees longitude_degrees : option R) (elevation_m_ : R)
    (t : Topos) :
  Topos_init latitude_ longitude_ latitude_degrees longitude_degrees
    elevation_m_ = Ok t ->
  let lat := radians (latitude t) in
  let lon := radians (longitude t) in
  (up t = (cos lat * cos lon, cos lat * sin lon, sin lat)
   /\ north t = (- sin lat * cos lon, - sin lat * sin lon, cos lat)
   /\ west t = (sin lon, - cos lon, 0))
  /\ (length_of (up t) = 1 /\ length_of (north t) = 1
      /\ length_of (west t) = 1)
  /\ (dots (up t) (north t) = 0 /\ dots (up t) (west t) = 0
      /\ dots (north t) (west t) = 0).
Proof.
  intros H lat lon.
  destruct (Topos_init_frame _ _ _ _ _ _ H) as (Hu & Hn & Hw).
  fold lat lon in Hu, Hn, Hw.
  split; [auto | ].
  rewrite Hu, Hn, Hw; unfold length_of, dots.
  pose proof (sin2_cos2 lat) as Hlat; pose proof (sin2_cos2 lon) as Hlon.
  unfold Rsqr in Hlat, Hlon.
  assert (Hup : cos lat * cos lon * (cos lat * cos lon)
                + cos lat * sin lon * (cos lat * sin lon)
                + sin lat * sin lat = 1).
  { replace (cos lat * cos lon * (cos lat * cos lon)
             + cos lat * sin lon * (cos lat * sin lon) + sin lat * sin lat)
      with (cos lat * cos lat * (sin lon * sin lon + cos lon * cos lon)
            + sin lat * sin lat) by ring.
    rewrite Hlon; lra. }
  assert (Hnorth : - sin lat * cos lon * (- sin lat * cos lon)
                   + - sin lat * sin lon * (- sin lat * sin lon)
                   + cos lat * cos lat = 1).
  { replace (- sin lat * cos lon * (- sin lat * cos lon)
             + - sin lat * sin lon * (- sin lat * sin lon)
             + cos lat * cos lat)
      with (sin lat * sin lat * (sin lon * sin lon + cos lon * cos lon)
            + cos lat * cos lat) by ring.
    rewrite Hlon; lra. }
  assert (Hwest : sin lon * sin lon + - cos lon * - cos lon + 0 * 0 = 1).
  { replace (sin lon * sin lon + - cos lon * - cos lon + 0 * 0)
      with (sin lon * sin lon + cos lon * cos lon) by ring.
    exact Hlon. }
  repeat split.
  - rewrite Hup; apply sqrt_1.
  - rewrite Hnorth; apply sqrt_1.
  - rewrite Hwest; apply sqrt_1.
  - replace (cos lat * cos lon * (- sin lat * cos lon)
             + cos lat * sin lon * (- sin lat * sin lon) + sin lat * cos lat)
      with (sin lat * cos lat
            * (1 - (sin lon * sin lon + cos lon * cos lon))) by ring.
    rewrite Hlon; ring.
  - ring.
  - ring.
Qed.

End Properties.

(** ** The theorems at the sample objects *)

(** C3, at the inputs where the code departs from it.  With
    [A = sample_A] and [B = sample_B], two positions at the same time that
    both carry a velocity, [A - (A - B)] has the position of [B] but the
    velocity [(2, 1, 0)], which is [B.velocity - 2 * A.velocity] and not
    the velocity [(4, 5, 6)] of [B]: the first components are 2 apart. *)
Theorem ICRS_sub_twice_velocity :
  jd sample_A = jd sample_B
  /\ position (ICRS_sub sample_A (ICRS_sub sample_A sample_B))
     = position sample_B
  /\ velocity (ICRS_sub sample_A (ICRS_sub sample_A sample_B))
     = Some (2, 1, 0)
  /\ velocity sample_B = Some (4, 5, 6)
  /\ (2, 1, 0) <> (4, 5, 6).
Proof.
  split; [reflexivity | ].
  destruct (ICRS_sub_twice sample_A sample_B (1, 2, 3) (4, 5, 6)
              eq_refl eq_refl) as [Hp Hv].
  split; [exact Hp | ].
  split; [ | split; [reflexivity | ] ].
  - rewrite Hv; unfold sub; f_equal; apply vec_eq_intro; ring.
  - intros H; apply vec_eq_inv in H; lra.
Qed.

Lemma ICRS_sub_spec_witness :
  (velocity sample_A = Some (1, 2, 3) /\ velocity sample_B = Some (4, 5, 6))
  /\ velocity (ICRS_sub sample_A sample_B) = Some (sub (4, 5, 6) (1, 2, 3))
  /\ position (ICRS_sub sample_A sample_B) = sub (1, 2, 3) (7, 5, 3).
Proof.
  destruct (ICRS_sub_spec sample_A sample_B) as (Hp & Hv & _).
  split; [split; reflexivity | ].
  split; [apply Hv; reflexivity | exact Hp].
Defined.

(** An accepted epoch for which [radec] raises, and a numeric epoch that
    it rejects. *)
Lemma radec_accepted_epoch_raises :
  epoch_accepted (PyStr "date") = true
  /\ radec sample_to_polar sample_JulianDate_tt sample_timeless (PyStr "date")
     = Raise (AttributeError "M")
  /\ radec sample_to_polar sample_JulianDate_tt sample_A (PyInt 2451545)
     = Raise (ValueError radec_message).
Proof. repeat split. Qed.

Lemma radec_epoch_spec_witness :
  (PyStr "date" = PyStr "date" /\ jd sample_A = Some sample_jd)
  /\ radec sample_to_polar sample_JulianDate_tt sample_A (PyStr "date")
     = Ok (radec_of sample_to_polar (mat_vec (M sample_jd) (position sample_A))).
Proof.
  destruct (radec_epoch_spec sample_to_polar sample_JulianDate_tt
              sample_A (PyStr "date")) as (_ & _ & _ & _ & Hdate & _).
  split; [split; reflexivity | ].
  apply Hdate; reflexivity.
Defined.

Lemma radec_date_without_time_witness :
  jd sample_timeless = None
  /\ radec sample_to_polar sample_JulianDate_tt sample_timeless (PyStr "date")
     = Raise (AttributeError "M").
Proof.
  split; [reflexivity | ].
  apply (radec_date_without_time sample_to_polar sample_JulianDate_tt
           sample_timeless).
  reflexivity.
Defined.

Lemma altaz_without_topos_witness :
  observer sample_apparent_alone = None
  /\ altaz sample_to_polar sample_refract sample_apparent_alone
       PyNone (PyStr "standard")
     = Raise (ValueError altaz_message).
Proof.
  split; [reflexivity | ].
  apply (altaz_without_topos sample_to_polar sample_refract
           sample_apparent_alone PyNone (PyStr "standard")).
  left; reflexivity.
Defined.

Lemma altaz_refraction_witness :
  (observer sample_apparent = Some sample_observer
   /\ topos sample_observer = Some sample_topos
   /\ altaz_rotation sample_observer = Some identity
   /\ elevation_m sample_topos = 0)
  /\ altaz sample_to_polar sample_refract sample_apparent
       PyNone (PyStr "standard")
     = Ok (Angle_radians (dots (0, 1, 0) (4, 5, 6)),
           Angle_radians (dots (0, 0, 1) (4, 5, 6)),
           dots (1, 0, 0) (4, 5, 6))
  /\ altaz sample_to_polar sample_refract sample_apparent
       (PyStr "standard") (PyStr "standard")
     = Ok (Angle_degrees
             (sample_refract (dots (0, 1, 0) (4, 5, 6) * RAD2DEG)
                (PyFloat 10) (PyFloat 1010)),
           Angle_radians (dots (0, 0, 1) (4, 5, 6)),
           dots (1, 0, 0) (4, 5, 6)).
Proof.
  destruct (altaz_refraction sample_to_polar sample_refract
              sample_apparent sample_observer sample_topos identity
              (dots (1, 0, 0) (4, 5, 6)) (dots (0, 1, 0) (4, 5, 6))
              (dots (0, 0, 1) (4, 5, 6))
              eq_refl eq_refl eq_refl eq_refl)
    as (Hnone & _ & _ & _ & Hzero & _).
  split; [repeat split | ].
  split; [apply Hnone | apply Hzero; reflexivity].
Defined.

Lemma apparent_earth_deflection_witness :
  (observer sample_astrometric = Some sample_observer
   /\ geocentric sample_observer = false)
  /\ include_earth_deflection sample_limb_angle sample_observer
       (position sample_astrometric) = BoolScalar true
  /\ include_earth_deflection sample_limb_angle sample_geocentric_observer
       (position sample_astrometric_geocentric) = BoolArray [false].
Proof.
  split; [split; reflexivity | ].
  split.
  - destruct (apparent_earth_deflection sample_limb_angle
                sample_add_deflection sample_add_aberration
                sample_astrometric sample_observer Datatypes.tt sample_jd
                (0, 1, 0) 0 eq_refl eq_refl eq_refl eq_refl eq_refl)
      as (_ & _ & Hflag).
    destruct (Hflag eq_refl) as (b & Hb & _ & Hboundary).
    rewrite Hb, (Hboundary eq_refl); reflexivity.
  - destruct (apparent_earth_deflection sample_limb_angle
                sample_add_deflection sample_add_aberration
                sample_astrometric_geocentric sample_geocentric_observer
                Datatypes.tt sample_jd
                (0, 1, 0) 0 eq_refl eq_refl eq_refl eq_refl eq_refl)
      as (_ & Hgeo & _).
    exact (Hgeo eq_refl).
Defined.

(** A time reference and a vector at which the two readings differ: with
    no sidereal rotation, [MT] sends [(1, 0, 0)] to [(0, -1, 0)] and [M]
    sends it to [(0, 1, 0)]. *)
Lemma ITRF_to_GCRS_is_not_by_M :
  MT sample_jd = transpose (M sample_jd)
  /\ ITRF_to_GCRS rot_z_model sample_jd (1, 0, 0)
     <> ITRF_to_GCRS_by_M rot_z_model sample_jd (1, 0, 0).
Proof.
  split; [reflexivity | ].
  unfold ITRF_to_GCRS, ITRF_to_GCRS_by_M; rewrite sidereal_angle.
  cbv [sample_jd gast M MT].
  replace (0 / 24 * (2 * PI)) with 0 by lra.
  unfold rot_z_model; rewrite cos_0, sin_0.
  cbv [quarter_turn transpose mat_vec dots].
  intros H; apply vec_eq_inv in H; lra.
Qed.

Lemma Topos_frame_orthonormal_witness :
  Topos_init sample_interpret_ltude PyNone PyNone (Some 90) (Some 180) 0
  = Ok sample_topos
  /\ length_of (up sample_topos) = 1
  /\ dots (up sample_topos) (north sample_topos) = 0.
Proof.
  split; [reflexivity | ].
  destruct (Topos_frame_orthonormal sample_interpret_ltude
              PyNone PyNone (Some 90) (Some 180) 0 sample_topos eq_refl)
    as (_ & (Hup & _) & (Hun & _)).
  split; [exact Hup | exact Hun].
Defined.

(** ** Properties of the rest of the module *)

(** *** Matrices *)

Ltac destruct_matrix m :=
  let a := fresh "a" in let b := fresh "b" in let c := fresh "c" in
  let d := fresh "d" in let e := fresh "e" in let f := fresh "f" in
  let g := fresh "g" in let h := fresh "h" in let i := fresh "i" in
  destruct m as [[[[a b] c] [[d e] f]] [[g h] i]].

Lemma matrix_eq_intro (a b c d e f g h i a' b' c' d' e' f' g' h' i' : R) :
  a = a' -> b = b' -> c = c' -> d = d' -> e = e' -> f = f' ->
  g = g' -> h = h' -> i = i' ->
  ((a, b, c), (d, e, f), (g, h, i)) = ((a', b', c'), (d', e', f'), (g', h', i')).
Proof. intros; subst; reflexivity. Qed.

Ltac matrix_ring :=
  cbv [mat_mul mat_mul_ki mat_vec transpose dots identity];
  first [apply matrix_eq_intro | apply vec_eq_intro]; ring.

Lemma transpose_involutive (m : matrix) : transpose (transpose m) = m.
Proof. destruct_matrix m; reflexivity. Qed.

Lemma transpose_mat_mul (a b : matrix) :
  transpose (mat_mul a b) = mat_mul (transpose b) (transpose a).
Proof. destruct_matrix a; destruct_matrix b; matrix_ring. Qed.

Lemma mat_mul_assoc (a b c : matrix) :
  mat_mul (mat_mul a b) c = mat_mul a (mat_mul b c).
Proof.
  destruct_matrix a; destruct_matrix b; destruct_matrix c; matrix_ring.
Qed.

Lemma mat_mul_identity_l (m : matrix) : mat_mul identity m = m.
Proof. destruct_matrix m; matrix_ring. Qed.

Lemma mat_mul_identity_r (m : matrix) : mat_mul m identity = m.
Proof. destruct_matrix m; matrix_ring. Qed.

Lemma mat_vec_mat_mul (a b : matrix) (v : vec) :
  mat_vec (mat_mul a b) v = mat_vec a (mat_vec b v).
Proof.
  destruct_matrix a; destruct_matrix b; destruct v as [[x y] z]; matrix_ring.
Qed.

Lemma mat_vec_identity (v : vec) : mat_vec identity v = v.
Proof. destruct v as [[x y] z]; matrix_ring. Qed.

Lemma dots_mat_vec (m : matrix) (v w : vec) :
  dots (mat_vec m v) (mat_vec m w)
  = dots v (mat_vec (mat_mul (transpose m) m) w).
Proof.
  destruct_matrix m; destruct v as [[x y] z]; destruct w as [[x' y'] z'].
  cbv [mat_mul mat_vec transpose dots]; ring.
Qed.

Lemma mat_mul_ki_transpose (a b : matrix) :
  mat_mul_ki a (transpose b) = mat_mul b (transpose a).
Proof.
  unfold mat_mul_ki; rewrite transpose_mat_mul, transpose_involutive.
  reflexivity.
Qed.

Lemma orthogonal_transpose (m : matrix) :
  orthogonal m -> orthogonal (transpose m).
Proof.
  intros [H1 H2]; split; rewrite transpose_involutive; assumption.
Qed.

Lemma orthogonal_mat_mul (a b : matrix) :
  orthogonal a -> orthogonal b -> orthogonal (mat_mul a b).
Proof.
  intros [Ha1 Ha2] [Hb1 Hb2]; split; rewrite transpose_mat_mul.
  - rewrite mat_mul_assoc, <- (mat_mul_assoc b), Hb1, mat_mul_identity_l.
    exact Ha1.
  - rewrite mat_mul_assoc, <- (mat_mul_assoc (transpose a)), Ha2,
      mat_mul_identity_l.
    exact Hb2.
Qed.

Lemma orthogonal_dots (m : matrix) (v w : vec) :
  orthogonal m -> dots (mat_vec m v) (mat_vec m w) = dots v w.
Proof.
  intros [_ H]; rewrite dots_mat_vec, H, mat_vec_identity; reflexivity.
Qed.

Lemma orthogonal_length_of (m : matrix) (v : vec) :
  orthogonal m -> length_of (mat_vec m v) = length_of v.
Proof.
  intros H; unfold length_of; rewrite (orthogonal_dots m v v H); reflexivity.
Qed.

Lemma rot_z_model_orthogonal (theta : R) : orthogonal (rot_z_model theta).
Proof.
  pose proof (sin2_cos2 theta) as H; unfold Rsqr in H.
  split; cbv [rot_z_model mat_mul mat_vec transpose dots identity];
    apply matrix_eq_intro; try ring; try (rewrite <- H; ring).
Qed.

Lemma orthogonal_cancel_l (m : matrix) (v : vec) :
  orthogonal m -> mat_vec (transpose m) (mat_vec m v) = v.
Proof.
  intros [_ H]; rewrite <- mat_vec_mat_mul, H; apply mat_vec_identity.
Qed.

Lemma orthogonal_cancel_r (m : matrix) (v : vec) :
  orthogonal m -> mat_vec m (mat_vec (transpose m) v) = v.
Proof.
  intros [H _]; rewrite <- mat_vec_mat_mul, H; apply mat_vec_identity.
Qed.

(** *** The local frame of a Topos *)

(** The three vectors of the constructor, as rows [north, -west, up], form
    a matrix whose transpose is its inverse. *)
Lemma frame_orthogonal (lat lon : R) :
  orthogonal
    ((- sin lat * cos lon, - sin lat * sin lon, cos lat),
     neg (sin lon, - cos lon, 0),
     (cos lat * cos lon, cos lat * sin lon, sin lat)).
Proof.
  pose proof (sin2_cos2 lat) as Hlat; pose proof (sin2_cos2 lon) as Hlon.
  unfold Rsqr in Hlat, Hlon.
  split; cbv [neg mat_mul mat_vec transpose dots identity];
    apply matrix_eq_intro; nsatz.
Qed.

Section MoreProperties.

Context {Ephemeris : Type}.

Variable to_polar : vec -> R * R * R.
Variable rot_z : R -> matrix.
Variable compute_limb_angle : vec -> vec -> R * R.
Variable refract : R -> pyvalue -> pyvalue -> R.
Variable add_deflection : vec -> vec -> Ephemeris -> R -> ndbool -> vec.
Variable add_aberration : vec -> vec -> R -> vec.
Variable _interpret_ltude : string -> string -> string -> string -> result Angle.
Variable terra : R -> R -> R -> R -> vec * vec.
Variable earth : Ephemeris -> JulianDate -> @Position Ephemeris.
Variable rotation_to_ecliptic : matrix.
Variable AU_of_m : R -> R.

Local Abbreviation Position := (@Position Ephemeris).
Local Abbreviation Topos_init := (Topos_init _interpret_ltude).
Local Abbreviation include_earth_deflection :=
  (include_earth_deflection compute_limb_angle).
Local Abbreviation apparent :=
  (apparent compute_limb_angle add_deflection add_aberration).
Local Abbreviation altaz := (altaz to_polar refract).
Local Abbreviation ITRF_to_GCRS := (ITRF_to_GCRS rot_z).
Local Abbreviation ecliptic_position :=
  (ecliptic_position rotation_to_ecliptic).
Local Abbreviation _position_and_velocity :=
  (_position_and_velocity terra AU_of_m).
Local Abbreviation _altaz_rotation := (_altaz_rotation rot_z).
Local Abbreviation Topos_call := (Topos_call rot_z terra earth AU_of_m).
Local Abbreviation Topos_gcrs := (Topos_gcrs rot_z terra AU_of_m).

(** *** Topos.__init__: orientation and arguments *)

(** The frame that the constructor of [Topos] computes is right-handed in
    the order up, north, west: each vector is the vector product of the
    two that precede it in that cycle. *)
Theorem Topos_frame_handed (latitude_ longitude_ : pyvalue)
    (latitude_degrees longitude_degrees : option R) (elevation_m_ : R)
    (t : Topos) :
  Topos_init latitude_ longitude_ latitude_degrees longitude_degrees
    elevation_m_ = Ok t ->
  cross (up t) (north t) = west t
  /\ cross (north t) (west t) = up t
  /\ cross (west t) (up t) = north t.
Proof.
  intros H.
  destruct (Topos_init_frame _ _ _ _ _ _ _ H) as (Hu & Hn & Hw).
  rewrite Hu, Hn, Hw.
  set (lat := radians (latitude t)); set (lon := radians (longitude t)).
  pose proof (sin2_cos2 lat) as Hlat; pose proof (sin2_cos2 lon) as Hlon.
  unfold Rsqr in Hlat, Hlon.
  unfold cross; repeat split; apply vec_eq_intro; nsatz.
Qed.

(** One coordinate of the constructor: the chain of tests on the degrees
    and on the argument. *)
Lemma ltude_chain (degrees : option R) (arg : pyvalue)
    (name pos neg msg : string) :
  let r :=
    match degrees with
    | Some d => Ok (Angle_degrees d)
    | None =>
        match arg with
        | PyStr s => _interpret_ltude s name pos neg
        | PyAngle a => Ok a
        | _ => Raise (TypeError msg)
        end
    end in
  (forall a,
      r = Ok a <-> ltude_given _interpret_ltude degrees arg name pos neg a)
  /\ (degrees = None ->
      (forall s, arg <> PyStr s) -> (forall a, arg <> PyAngle a) ->
      r = Raise (TypeError msg))
  /\ (forall s e,
      degrees = None -> arg = PyStr s ->
      _interpret_ltude s name pos neg = Raise e -> r = Raise e).
Proof.
  cbv zeta; unfold ltude_given.
  destruct degrees as [d | ].
  - split; [ | split].
    + intros a; split; intros H; [injection H as <- | subst a]; reflexivity.
    + intros H; discriminate H.
    + intros s e H; discriminate H.
  - split; [ | split].
    + intros a; split.
      * intros H; destruct arg as [ | x | n | s | t | b]; try discriminate H.
        -- right; exists s; split; [reflexivity | exact H].
        -- left; injection H as <-; reflexivity.
      * intros [-> | (s & -> & H)]; [reflexivity | exact H].
    + intros _ Hs Ha; destruct arg as [ | x | n | s | t | b];
        try reflexivity.
      * exfalso; apply (Hs s); reflexivity.
      * exfalso; apply (Ha b); reflexivity.
    + intros s e _ -> H; exact H.
Qed.

(** The arguments of the constructor.  A value of [latitude_degrees]
    (of [longitude_degrees]) wins over whatever was passed as [latitude]
    ([longitude]); without it the argument has to be a string, which
    [_interpret_ltude] reads, or an Angle, and anything else, the default
    [None] included, raises the [TypeError] of that coordinate.  The
    latitude is examined first: the error of the longitude is raised
    only once the latitude is settled, however it was given.  The
    constructor returns exactly when both coordinates are settled, with
    those two angles and the elevation stored. *)
Theorem Topos_init_arguments (latitude_ longitude_ : pyvalue)
    (latitude_degrees longitude_degrees : option R) (elevation_m_ : R) :
  let lat_given :=
    ltude_given _interpret_ltude latitude_degrees latitude_
      "latitude" "N" "S" in
  let lon_given :=
    ltude_given _interpret_ltude longitude_degrees longitude_
      "longitude" "E" "W" in
  let built :=
    Topos_init latitude_ longitude_ latitude_degrees longitude_degrees
      elevation_m_ in
  (forall a b, lat_given a -> lon_given b ->
      exists t, built = Ok t /\ latitude t = a /\ longitude t = b
                /\ elevation_m t = elevation_m_)
  /\ (forall t, built = Ok t ->
      lat_given (latitude t) /\ lon_given (longitude t)
      /\ elevation_m t = elevation_m_)
  /\ (forall d t, latitude_degrees = Some d -> built = Ok t ->
      latitude t = Angle_degrees d)
  /\ (forall e t, longitude_degrees = Some e -> built = Ok t ->
      longitude t = Angle_degrees e)
  /\ (latitude_degrees = None ->
      (forall s, latitude_ <> PyStr s) -> (forall a, latitude_ <> PyAngle a) ->
      built = Raise (TypeError latitude_message))
  /\ (forall a, lat_given a ->
      longitude_degrees = None ->
      (forall s, longitude_ <> PyStr s) -> (forall b, longitude_ <> PyAngle b) ->
      built = Raise (TypeError longitude_message))
  /\ (forall s e,
      latitude_degrees = None -> latitude_ = PyStr s ->
      _interpret_ltude s "latitude" "N" "S" = Raise e ->
      built = Raise e)
  /\ (forall a s e, lat_given a ->
      longitude_degrees = None -> longitude_ = PyStr s ->
      _interpret_ltude s "longitude" "E" "W" = Raise e ->
      built = Raise e).
Proof.
  intros lat_given lon_given built.
  destruct (ltude_chain latitude_degrees latitude_
              "latitude" "N" "S" latitude_message) as (Hlat & HlatT & HlatE).
  destruct (ltude_chain longitude_degrees longitude_
              "longitude" "E" "W" longitude_message) as (Hlon & HlonT & HlonE).
  fold lat_given in Hlat; fold lon_given in Hlon.
  unfold built, Topos_init.
  match type of Hlat with
  | forall a, ?r = Ok a <-> _ => set (rlat := r) in *
  end.
  match type of Hlon with
  | forall a, ?r = Ok a <-> _ => set (rlon := r) in *
  end.
  assert (Hinv : forall t,
             (lat_angle <- rlat ;;
              lon_angle <- rlon ;;
              Ok (mkTopos lat_angle lon_angle elevation_m_
                    (cos (radians lat_angle) * cos (radians lon_angle),
                     cos (radians lat_angle) * sin (radians lon_angle),
                     sin (radians lat_angle))
                    (- sin (radians lat_angle) * cos (radians lon_angle),
                     - sin (radians lat_angle) * sin (radians lon_angle),
                     cos (radians lat_angle))
                    (sin (radians lon_angle), - cos (radians lon_angle), 0.0)))
             = Ok t ->
             rlat = Ok (latitude t) /\ rlon = Ok (longitude t)
             /\ elevation_m t = elevation_m_).
  { intros t H.
    destruct rlat as [a | e]; [ | discriminate H].
    destruct rlon as [b | e]; [ | discriminate H].
    cbn in H; injection H as <-; repeat split. }
  split; [ | split; [ | split; [ | split; [ | split; [ | split;
    [ | split ] ] ] ] ] ].
  - intros a b Ha Hb.
    apply Hlat in Ha; apply Hlon in Hb; rewrite Ha, Hb.
    eexists; split; [reflexivity | repeat split].
  - intros t H; destruct (Hinv t H) as (Ha & Hb & He).
    split; [apply Hlat; exact Ha | split; [apply Hlon; exact Hb | exact He] ].
  - intros d t Hd H; destruct (Hinv t H) as (Ha & _ & _).
    apply Hlat in Ha; unfold lat_given, ltude_given in Ha.
    rewrite Hd in Ha; exact Ha.
  - intros e t He H; destruct (Hinv t H) as (_ & Hb & _).
    apply Hlon in Hb; unfold lon_given, ltude_given in Hb.
    rewrite He in Hb; exact Hb.
  - intros Hd Hs Ha; rewrite (HlatT Hd Hs Ha); reflexivity.
  - intros a Ha Hd Hs Hb.
    apply Hlat in Ha; rewrite Ha, (HlonT Hd Hs Hb); reflexivity.
  - intros s e Hd Hs He; rewrite (HlatE s e Hd Hs He); reflexivity.
  - intros a s e Ha Hd Hs He.
    apply Hlat in Ha; rewrite Ha, (HlonE s e Hd Hs He); reflexivity.
Qed.

(** *** Topos._altaz_rotation and ITRF_to_GCRS *)

Lemma _altaz_rotation_product (t : Topos) (jd_ : JulianDate) :
  _altaz_rotation t jd_
  = mat_mul
      (mat_mul (north t, neg (west t), up t)
         (transpose (rot_z (gast jd_ * TAU / 24.0))))
      (M jd_).
Proof.
  unfold _altaz_rotation; rewrite mat_mul_ki_transpose; reflexivity.
Qed.

(** The horizon rotation of a constructed Topos is a matrix whose
    transpose is its inverse, and it keeps lengths, as soon as [rot_z]
    returns such a matrix for the sidereal angle and the matrix [M] of
    the time reference is one. *)
Theorem _altaz_rotation_orthogonal (latitude_ longitude_ : pyvalue)
    (latitude_degrees longitude_degrees : option R) (elevation_m_ : R)
    (t : Topos) (jd_ : JulianDate) :
  Topos_init latitude_ longitude_ latitude_degrees longitude_degrees
    elevation_m_ = Ok t ->
  orthogonal (rot_z (gast jd_ * TAU / 24.0)) ->
  orthogonal (M jd_) ->
  orthogonal (_altaz_rotation t jd_)
  /\ (forall v,
        length_of (mat_vec (_altaz_rotation t jd_) v) = length_of v).
Proof.
  intros H Hspin HM.
  assert (Horth : orthogonal (_altaz_rotation t jd_)).
  { rewrite _altaz_rotation_product.
    apply orthogonal_mat_mul; [ | exact HM].
    apply orthogonal_mat_mul; [ | apply orthogonal_transpose; exact Hspin].
    destruct (Topos_init_frame _ _ _ _ _ _ _ H) as (Hu & Hn & Hw).
    rewrite Hu, Hn, Hw; apply frame_orthogonal. }
  split; [exact Horth | ].
  intros v; apply orthogonal_length_of; exact Horth.
Qed.

(** The horizon rotation undoes [ITRF_to_GCRS]: a vector of the
    Earth-fixed frame, taken to the GCRS and then through the horizon
    rotation of the same time, comes out as its components along north,
    east (the opposite of west) and up.  For a constructed Topos its own
    [up] is the zenith [(0, 0, 1)], its [north] is [(1, 0, 0)] and its
    [west] is [(0, -1, 0)].  This needs [MT] to be the transpose of [M],
    and [M] and the sidereal rotation to have their transposes as
    inverses. *)
Theorem _altaz_rotation_of_ITRF (latitude_ longitude_ : pyvalue)
    (latitude_degrees longitude_degrees : option R) (elevation_m_ : R)
    (t : Topos) (jd_ : JulianDate) :
  Topos_init latitude_ longitude_ latitude_degrees longitude_degrees
    elevation_m_ = Ok t ->
  MT jd_ = transpose (M jd_) ->
  orthogonal (rot_z (gast jd_ * TAU / 24.0)) ->
  orthogonal (M jd_) ->
  (forall v,
      mat_vec (_altaz_rotation t jd_) (ITRF_to_GCRS jd_ v)
      = (dots (north t) v, dots (neg (west t)) v, dots (up t) v))
  /\ mat_vec (_altaz_rotation t jd_) (ITRF_to_GCRS jd_ (up t)) = (0, 0, 1)
  /\ mat_vec (_altaz_rotation t jd_) (ITRF_to_GCRS jd_ (north t)) = (1, 0, 0)
  /\ mat_vec (_altaz_rotation t jd_) (ITRF_to_GCRS jd_ (west t)) = (0, -1, 0).
Proof.
  intros H HMT Hspin HM.
  assert (Hall : forall v,
      mat_vec (_altaz_rotation t jd_) (ITRF_to_GCRS jd_ v)
      = (dots (north t) v, dots (neg (west t)) v, dots (up t) v)).
  { intros v; rewrite _altaz_rotation_product; unfold ITRF_to_GCRS.
    rewrite HMT, !mat_vec_mat_mul.
    rewrite (orthogonal_cancel_r (M jd_) _ HM).
    rewrite (orthogonal_cancel_l _ _ Hspin).
    reflexivity. }
  split; [exact Hall | ].
  rewrite !Hall.
  destruct (Topos_init_frame _ _ _ _ _ _ _ H) as (Hu & Hn & Hw).
  rewrite Hu, Hn, Hw.
  set (lat := radians (latitude t)); set (lon := radians (longitude t)).
  pose proof (sin2_cos2 lat) as Hlat; pose proof (sin2_cos2 lon) as Hlon.
  unfold Rsqr in Hlat, Hlon.
  unfold dots, neg; repeat split; apply vec_eq_intro; nsatz.
Qed.

(** [ITRF_to_GCRS] keeps inner products, hence lengths and angles, when
    the sidereal rotation and [MT] have their transposes as inverses. *)
Theorem ITRF_to_GCRS_isometry (jd_ : JulianDate) (v w : vec) :
  orthogonal (rot_z (gast jd_ * TAU / 24.0)) ->
  orthogonal (MT jd_) ->
  dots (ITRF_to_GCRS jd_ v) (ITRF_to_GCRS jd_ w) = dots v w
  /\ length_of (ITRF_to_GCRS jd_ v) = length_of v.
Proof.
  intros Hspin HMT; unfold ITRF_to_GCRS.
  split.
  - rewrite (orthogonal_dots _ _ _ HMT); apply orthogonal_dots; exact Hspin.
  - rewrite (orthogonal_length_of _ _ HMT); apply orthogonal_length_of.
    exact Hspin.
Qed.

(** *** ICRS.distance, ICRS.ecliptic_position, ICRS.__repr__ *)

(** The distance between two positions does not depend on the order of
    the subtraction, is never negative, and is zero when the two position
    vectors are equal. *)
Theorem distance_of_difference (A B : Position) :
  distance (ICRS_sub A B) = distance (ICRS_sub B A)
  /\ 0 <= distance (ICRS_sub A B)
  /\ (position A = position B -> distance (ICRS_sub A B) = 0).
Proof.
  unfold distance, ICRS_sub, new_position; cbn [position].
  destruct (position A) as [[a0 a1] a2], (position B) as [[b0 b1] b2].
  unfold length_of; split; [ | split].
  - f_equal; unfold sub, dots; ring.
  - apply sqrt_pos.
  - intros H; apply vec_eq_inv in H; destruct H as (-> & -> & ->).
    unfold sub, dots.
    replace ((b0 - b0) * (b0 - b0) + (b1 - b1) * (b1 - b1)
             + (b2 - b2) * (b2 - b2)) with 0 by ring.
    apply sqrt_0.
Qed.

(** The ecliptic position is as far from the origin as the position
    itself, when the matrix [rotation_to_ecliptic] has its transpose as
    inverse. *)
Theorem ecliptic_position_distance (self : Position) :
  orthogonal rotation_to_ecliptic ->
  length_of (ecliptic_position self) = distance self.
Proof.
  intros H; unfold ecliptic_position, distance.
  apply orthogonal_length_of; exact H.
Qed.

(** The text of [repr] tells, and tells no more than, the class of the
    position, whether it has a velocity, and whether it has a time. *)
Theorem repr_injective (p q : Position) :
  repr p = repr q
  <-> class_of p = class_of q
      /\ (velocity p = None <-> velocity q = None)
      /\ (jd p = None <-> jd q = None).
Proof.
  unfold repr.
  destruct (class_of p), (class_of q), (velocity p), (velocity q),
    (jd p), (jd q); cbn; split;
    try (intros H; discriminate H);
    try (intros (H1 & H2 & H3); try discriminate H1;
         try (destruct H2 as [H2 H2']; try discriminate (H2 eq_refl);
              discriminate (H2' eq_refl));
         try (destruct H3 as [H3 H3']; try discriminate (H3 eq_refl);
              discriminate (H3' eq_refl));
         reflexivity);
    try (intros _; repeat split; intros; try reflexivity; discriminate).
Qed.

(** *** Geocentric.observe *)

Lemma Geocentric_observe_inversion (self : Position) (other : Body)
    (a : Position) :
  Geocentric_observe self other = Ok a
  <-> exists method g g_v self_v,
        gcrs other = Some (Some method)
        /\ method (jd self) = Ok g
        /\ velocity g = Some g_v
        /\ velocity self = Some self_v
        /\ a = set_observer
                 (new_position Apparent (sub (position g) (position self))
                    (Some (sub g_v self_v)) (jd self))
                 self.
Proof.
  split.
  - unfold Geocentric_observe; destruct other as [[[method | ] | ]]; cbn;
      try discriminate.
    destruct (method (jd self)) as [g | e] eqn:Hm; cbn; try discriminate.
    destruct (velocity g) as [g_v | ] eqn:Hg; cbn; try discriminate.
    destruct (velocity self) as [self_v | ] eqn:Hs; cbn; try discriminate.
    intros H; injection H as <-.
    exists method, g, g_v, self_v; repeat split; assumption.
  - intros (method & g & g_v & self_v & Ho & Hm & Hg & Hs & ->).
    destruct other as [o]; cbn in Ho; subst o.
    apply Geocentric_observe_ok; assumption.
Qed.

(** [Geocentric.observe] returns exactly when the target has a callable
    [gcrs], that call returns a position with a velocity, and the
    observer itself has a velocity; what it returns is the apparent
    position of the two differences, at the time of the observer and
    with the observer attached. *)
Theorem Geocentric_observe_returns (self : Position) (other : Body)
    (a : Position) :
  Geocentric_observe self other = Ok a
  <-> exists method g g_v self_v,
        gcrs other = Some (Some method)
        /\ method (jd self) = Ok g
        /\ velocity g = Some g_v
        /\ velocity self = Some self_v
        /\ a = set_observer
                 (new_position Apparent (sub (position g) (position self))
                    (Some (sub g_v self_v)) (jd self))
                 self.
Proof. exact (Geocentric_observe_inversion self other a). Qed.

(** An observer without a velocity cannot observe: with a target whose
    [gcrs] returns a position that has a velocity, the call stops at the
    velocity of the observer with an [AttributeError]. *)
Theorem Geocentric_observe_needs_velocity (self g : Position) (g_v : vec)
    (method : option JulianDate -> result Position) :
  velocity self = None ->
  method (jd self) = Ok g -> velocity g = Some g_v ->
  Geocentric_observe self (mkBody (Some (Some method)))
  = Raise (AttributeError "AU_per_d").
Proof.
  intros Hs Hm Hg; unfold Geocentric_observe; cbn.
  rewrite Hm; cbn; rewrite Hg; cbn; rewrite Hs; reflexivity.
Qed.

(** [Geocentric.observe] and the subtraction of positions agree on the
    position vector and are opposite on the velocity: observing [g] from
    [self] gives the position of [g - self] and the negated velocity of
    [g - self]. *)
Theorem Geocentric_observe_and_sub (self g a : Position)
    (method : option JulianDate -> result Position) :
  method (jd self) = Ok g ->
  Geocentric_observe self (mkBody (Some (Some method))) = Ok a ->
  position a = position (ICRS_sub g self)
  /\ velocity a = option_map neg (velocity (ICRS_sub g self))
  /\ jd a = jd self
  /\ observer a = Some self.
Proof.
  intros Hm H.
  apply Geocentric_observe_inversion in H.
  destruct H as (method' & g' & g_v & self_v & Ho & Hm' & Hg & Hs & ->).
  cbn in Ho; injection Ho as <-.
  rewrite Hm in Hm'; injection Hm' as <-.
  unfold ICRS_sub, set_observer, new_position; cbn.
  rewrite Hg, Hs; cbn; repeat split.
  destruct g_v as [[x y] z], self_v as [[x' y'] z']; unfold sub, neg.
  f_equal; apply vec_eq_intro; ring.
Qed.

(** *** Astrometric.apparent *)

Lemma apparent_inversion (self : Position) :
  ((exists a, apparent self = Ok a)
   <-> exists o eph t o_v lt,
         observer self = Some o /\ ephemeris o = Some eph
         /\ jd self = Some t /\ velocity o = Some o_v
         /\ lighttime self = Some lt)
  /\ ((exists a, apparent self = Ok a)
      \/ exists name, apparent self = Raise (AttributeError name)).
Proof.
  unfold apparent.
  destruct (observer self) as [o | ] eqn:Ho; cbn.
  2: { split; [ | right; eexists; reflexivity].
       split; [intros [a H]; discriminate H | ].
       intros (o & eph & t & o_v & lt & H & _); discriminate H. }
  destruct (ephemeris o) as [eph | ] eqn:He; cbn.
  2: { split; [ | right; eexists; reflexivity].
       split; [intros [a H]; discriminate H | ].
       intros (o' & eph & t & o_v & lt & H & H' & _).
       injection H as <-; rewrite He in H'; discriminate H'. }
  destruct (jd self) as [t | ] eqn:Hj; cbn.
  2: { split; [ | right; eexists; reflexivity].
       split; [intros [a H]; discriminate H | ].
       intros (o' & eph' & t & o_v & lt & _ & _ & H & _); discriminate H. }
  destruct (velocity o) as [o_v | ] eqn:Hv; cbn.
  2: { split; [ | right; eexists; reflexivity].
       split; [intros [a H]; discriminate H | ].
       intros (o' & eph' & t' & o_v & lt & H & _ & _ & H' & _).
       injection H as <-; rewrite Hv in H'; discriminate H'. }
  destruct (lighttime self) as [lt | ] eqn:Hl; cbn.
  2: { split; [ | right; eexists; reflexivity].
       split; [intros [a H]; discriminate H | ].
       intros (o' & eph' & t' & o_v' & lt & _ & _ & _ & _ & H).
       discriminate H. }
  split; [ | left; eexists; reflexivity].
  split; [ | intros _; eexists; reflexivity].
  intros _; exists o, eph, t, o_v, lt; repeat split; assumption.
Qed.

(** [apparent] returns exactly when the position has an observer and a
    light time and a time, and the observer has an ephemeris and a
    velocity; in every other case it raises an [AttributeError], never
    the [ValueError] of the module. *)
Theorem apparent_returns (self : Position) :
  ((exists a, apparent self = Ok a)
   <-> exists o eph t o_v lt,
         observer self = Some o /\ ephemeris o = Some eph
         /\ jd self = Some t /\ velocity o = Some o_v
         /\ lighttime self = Some lt)
  /\ ((exists a, apparent self = Ok a)
      \/ exists name, apparent self = Raise (AttributeError name)).
Proof. exact (apparent_inversion self). Qed.

(** What [apparent] returns is an [Apparent] position at the same time,
    without velocity, with the observer of the astrometric position; so
    [altaz] on it raises its [ValueError] exactly when that observer has
    no [topos] or no [altaz_rotation]. *)
Theorem apparent_then_altaz (self a : Position)
    (temperature_C pressure_mbar : pyvalue) :
  apparent self = Ok a ->
  class_of a = Apparent /\ jd a = jd self /\ velocity a = None
  /\ observer a = observer self
  /\ (altaz a temperature_C pressure_mbar = Raise (ValueError altaz_message)
      <-> exists o, observer self = Some o
                    /\ (topos o = None \/ altaz_rotation o = None)).
Proof.
  intros H.
  assert (Hex : exists a, apparent self = Ok a) by (eexists; exact H).
  apply (proj1 (apparent_inversion self)) in Hex.
  destruct Hex as (o & eph & t & o_v & lt & Ho & He & Hj & Hv & Hl).
  unfold apparent in H; rewrite Ho, Hj, Hl in H; cbn in H.
  rewrite He in H; cbn in H; rewrite Hv in H; cbn in H.
  injection H as <-; cbn.
  repeat split; try (symmetry; assumption).
  - intros Halt; exists o; split; [exact Ho | ].
    unfold altaz, altaz_context in Halt; cbn in Halt.
    destruct (topos o) as [tp | ]; [ | left; reflexivity].
    destruct (altaz_rotation o) as [R_ | ]; [ | right; reflexivity].
    cbn in Halt.
    destruct (to_polar (mat_vec R_ _)) as [[r alt] az]; discriminate Halt.
  - intros (o' & Ho' & Hmiss).
    rewrite Ho in Ho'; injection Ho' as <-.
    unfold altaz; rewrite altaz_context_unresolved; [reflexivity | ].
    right; exists o; split; [reflexivity | exact Hmiss].
Qed.

(** *** Topos.__call__ and Topos.gcrs *)

(** The two positions that a Topos generates for one time, when an
    ephemeris is attached and the Earth of that ephemeris has a
    velocity.  The barycentric one is the Earth plus the geocentric one,
    in position and in velocity, and records the geocentric vectors as
    [rGCRS] and [vGCRS]; it is marked not geocentric while the other is
    geocentric; both carry the Topos, the ephemeris and the same horizon
    rotation.  Subtracting the Earth from the barycentric position gives
    back the geocentric position vector, with the opposite velocity. *)
Theorem Topos_call_and_gcrs (self : Topos) (eph : Ephemeris)
    (jd_ : JulianDate) (e_v : vec) :
  velocity (earth eph jd_) = Some e_v ->
  exists l g g_v,
    Topos_call self (Some eph) jd_ = Ok l
    /\ Topos_gcrs self (Some eph) jd_ = Ok g
    /\ velocity g = Some g_v
    /\ (position g, g_v) = _position_and_velocity self jd_
    /\ position (located l) = add (position (earth eph jd_)) (position g)
    /\ velocity (located l) = Some (add e_v g_v)
    /\ rGCRS l = position g /\ vGCRS l = g_v
    /\ geocentric (located l) = false /\ geocentric g = true
    /\ class_of (located l) = Barycentric /\ class_of g = Geocentric
    /\ jd (located l) = Some jd_ /\ jd g = Some jd_
    /\ topos (located l) = Some self /\ topos g = Some self
    /\ altaz_rotation (located l) = Some (_altaz_rotation self jd_)
    /\ altaz_rotation g = Some (_altaz_rotation self jd_)
    /\ ephemeris (located l) = Some eph /\ ephemeris g = Some eph
    /\ position (ICRS_sub (located l) (earth eph jd_)) = position g
    /\ velocity (ICRS_sub (located l) (earth eph jd_)) = Some (neg g_v).
Proof.
  intros He.
  unfold Topos_call, Topos_gcrs; cbn [bind getattr].
  destruct (_position_and_velocity self jd_) as [tpos tvel] eqn:Hpv.
  rewrite He; cbn [bind getattr].
  eexists; eexists; exists tvel.
  split; [reflexivity | ]. split; [reflexivity | ].
  cbn; repeat split.
  - unfold ICRS_sub, new_position; cbn.
    destruct (position (earth eph jd_)) as [[x y] z], tpos as [[x' y'] z'].
    unfold add, sub; apply vec_eq_intro; ring.
  - unfold ICRS_sub, new_position; cbn; rewrite He.
    destruct e_v as [[x y] z], tvel as [[x' y'] z'].
    unfold add, sub, neg; f_equal; apply vec_eq_intro; ring.
Qed.

(** Without an attached ephemeris neither method returns: both raise the
    [AttributeError] of the missing attribute; and [__call__] raises the
    one of a missing velocity when the Earth of the ephemeris has none. *)
Theorem Topos_without_ephemeris (self : Topos) (jd_ : JulianDate) :
  Topos_call self None jd_ = Raise (AttributeError "ephemeris")
  /\ Topos_gcrs self (@None Ephemeris) jd_
     = Raise (AttributeError "ephemeris")
  /\ (forall eph, velocity (earth eph jd_) = None ->
      Topos_call self (Some eph) jd_ = Raise (AttributeError "AU_per_d")
      /\ is_Ok (Topos_gcrs self (Some eph) jd_) = true).
Proof.
  unfold Topos_call, Topos_gcrs; cbn [bind getattr].
  destruct (_position_and_velocity self jd_) as [tpos tvel].
  split; [reflexivity | split; [reflexivity | ] ].
  intros eph He; rewrite He; split; reflexivity.
Qed.

(** *** From a Topos to horizon coordinates *)

(** Observing from the geocentric position of a Topos: for a target whose
    [gcrs] returns a position with a velocity, the three calls
    [topos.gcrs(jd).observe(target).altaz()] all return, and the
    coordinates are the polar decomposition of the difference of the two
    geocentric positions, taken through the horizon rotation of the Topos
    at that time. *)
Theorem Topos_gcrs_observe_altaz (self : Topos) (eph : Ephemeris)
    (jd_ : JulianDate) (method : option JulianDate -> result Position)
    (g' : Position) (g'_v : vec) (pressure_mbar : pyvalue) (r alt az : R) :
  method (Some jd_) = Ok g' -> velocity g' = Some g'_v ->
  to_polar
    (mat_vec (_altaz_rotation self jd_)
       (sub (position g') (fst (_position_and_velocity self jd_))))
  = (r, alt, az) ->
  exists o a,
    Topos_gcrs self (Some eph) jd_ = Ok o
    /\ Geocentric_observe o (mkBody (Some (Some method))) = Ok a
    /\ observer a = Some o
    /\ velocity a
       = Some (sub g'_v (snd (_position_and_velocity self jd_)))
    /\ altaz a PyNone pressure_mbar
       = Ok (Angle_radians alt, Angle_radians az, r).
Proof.
  intros Hm Hv Hp.
  unfold Topos_gcrs; cbn [bind getattr].
  destruct (_position_and_velocity self jd_) as [tpos tvel] eqn:Hpv.
  cbn [fst snd] in *.
  eexists; eexists; split; [reflexivity | ].
  unfold Geocentric_observe; cbn; rewrite Hm; cbn; rewrite Hv; cbn.
  split; [reflexivity | ].
  cbn; split; [reflexivity | ]. split; [reflexivity | ].
  unfold altaz, altaz_context; cbn; rewrite Hp; reflexivity.
Qed.

(** Observing from the barycentric position of a Topos: an astrometric
    position whose observer is what [topos(jd)] returned, and which has a
    time and a light time, goes through [apparent] and [altaz] without an
    error; the Earth deflection flag is the comparison of the limb angle
    with 0.8, and the coordinates are taken through the horizon rotation
    of the Topos. *)
Theorem Topos_call_apparent_altaz (self : Topos) (eph : Ephemeris)
    (jd_ t : JulianDate) (l : Located) (astrometric : Position) (lt : R)
    (pressure_mbar : pyvalue) :
  Topos_call self (Some eph) jd_ = Ok l ->
  observer astrometric = Some (located l) ->
  jd astrometric = Some t -> lighttime astrometric = Some lt ->
  exists a r alt az,
    apparent astrometric = Ok a
    /\ include_earth_deflection (located l) (position astrometric)
       = BoolScalar
           (Rgeb (fst (compute_limb_angle (position astrometric)
                         (position (located l)))) 0.8)
    /\ to_polar (mat_vec (_altaz_rotation self jd_) (position a))
       = (r, alt, az)
    /\ altaz a PyNone pressure_mbar
       = Ok (Angle_radians alt, Angle_radians az, r).
Proof.
  intros Hc Ho Hj Hl.
  unfold Topos_call in Hc; cbn [bind getattr] in Hc.
  destruct (_position_and_velocity self jd_) as [tpos tvel].
  destruct (velocity (earth eph jd_)) as [e_v | ]; [ | discriminate Hc].
  cbn [bind getattr] in Hc; injection Hc as <-; cbn [located] in *.
  unfold apparent; rewrite Ho, Hj, Hl; cbn.
  match goal with
  | |- exists a r alt az, Ok ?x = Ok a /\ _ =>
      exists x;
      destruct (to_polar (mat_vec (_altaz_rotation self jd_) (position x)))
        as [[r alt] az] eqn:Hp
  end.
  exists r, alt, az.
  split; [reflexivity | ].
  split.
  - unfold include_earth_deflection; cbn.
    destruct (compute_limb_angle _ _); reflexivity.
  - split; [reflexivity | ].
    cbn in Hp; unfold altaz, altaz_context; cbn; rewrite Hp; reflexivity.
Qed.

(** An astrometric position observed from the geocentric position of a
    Topos never includes the deflection of the Earth, whatever the limb
    angle, and [apparent] returns for it. *)
Theorem Topos_gcrs_apparent (self : Topos) (eph : Ephemeris)
    (jd_ t : JulianDate) (g astrometric : Position) (lt : R) :
  Topos_gcrs self (Some eph) jd_ = Ok g ->
  observer astrometric = Some g ->
  jd astrometric = Some t -> lighttime astrometric = Some lt ->
  include_earth_deflection g (position astrometric) = BoolArray [false]
  /\ exists a, apparent astrometric = Ok a /\ observer a = Some g.
Proof.
  intros Hg Ho Hj Hl.
  unfold Topos_gcrs in Hg; cbn [bind getattr] in Hg.
  destruct (_position_and_velocity self jd_) as [tpos tvel].
  injection Hg as <-.
  split; [reflexivity | ].
  unfold apparent; rewrite Ho, Hj, Hl; cbn.
  eexists; split; reflexivity.
Qed.

End MoreProperties.

(** ** The further theorems at the sample objects *)

Lemma quarter_turn_orthogonal : orthogonal quarter_turn.
Proof.
  split; cbv [quarter_turn mat_mul mat_vec transpose dots identity];
    apply matrix_eq_intro; ring.
Qed.

Lemma sample_topos_constructed :
  Topos_init sample_interpret_ltude PyNone PyNone (Some 90) (Some 180) 0
  = Ok sample_topos.
Proof. reflexivity. Qed.

Lemma Topos_frame_handed_witness :
  Topos_init sample_interpret_ltude PyNone PyNone (Some 90) (Some 180) 0
  = Ok sample_topos
  /\ cross (up sample_topos) (north sample_topos) = west sample_topos.
Proof.
  split; [reflexivity | ].
  apply (Topos_frame_handed sample_interpret_ltude
           PyNone PyNone (Some 90) (Some 180) 0 sample_topos eq_refl).
Defined.

Lemma _altaz_rotation_orthogonal_witness :
  orthogonal (_altaz_rotation rot_z_model sample_topos sample_jd).
Proof.
  apply (_altaz_rotation_orthogonal rot_z_model sample_interpret_ltude
           PyNone PyNone (Some 90) (Some 180) 0 sample_topos sample_jd
           eq_refl (rot_z_model_orthogonal _) quarter_turn_orthogonal).
Defined.

Lemma _altaz_rotation_of_ITRF_witness :
  mat_vec (_altaz_rotation rot_z_model sample_topos sample_jd)
    (ITRF_to_GCRS rot_z_model sample_jd (up sample_topos))
  = (0, 0, 1).
Proof.
  apply (_altaz_rotation_of_ITRF rot_z_model sample_interpret_ltude
           PyNone PyNone (Some 90) (Some 180) 0 sample_topos sample_jd
           eq_refl eq_refl (rot_z_model_orthogonal _)
           quarter_turn_orthogonal).
Defined.

Lemma ITRF_to_GCRS_isometry_witness :
  length_of (ITRF_to_GCRS rot_z_model sample_jd (1, 2, 3))
  = length_of (1, 2, 3).
Proof.
  apply (ITRF_to_GCRS_isometry rot_z_model sample_jd (1, 2, 3) (1, 2, 3)
           (rot_z_model_orthogonal _)
           (orthogonal_transpose _ quarter_turn_orthogonal)).
Defined.

Lemma ecliptic_position_distance_witness :
  length_of (ecliptic_position quarter_turn sample_A) = distance sample_A.
Proof.
  apply (ecliptic_position_distance quarter_turn sample_A
           quarter_turn_orthogonal).
Defined.

Lemma Geocentric_observe_needs_velocity_witness :
  velocity sample_geocentric_still = None
  /\ Geocentric_observe sample_geocentric_still
       (mkBody (Some (Some sample_gcrs_method)))
     = Raise (AttributeError "AU_per_d").
Proof.
  split; [reflexivity | ].
  apply (Geocentric_observe_needs_velocity sample_geocentric_still
           (new_position Geocentric (4, 5, 6) (Some (0, 0, 1)) None)
           (0, 0, 1) sample_gcrs_method eq_refl eq_refl eq_refl).
Defined.

Lemma Geocentric_observe_and_sub_witness :
  velocity
    (set_observer
       (new_position Apparent (sub (4, 5, 6) (position sample_gcrs))
          (Some (sub (0, 0, 1) (mat_vec (MT sample_jd) (0, 1, 0))))
          (Some sample_jd))
       sample_gcrs)
  = option_map neg
      (velocity
         (ICRS_sub
            (new_position Geocentric (4, 5, 6) (Some (0, 0, 1))
               (Some sample_jd))
            sample_gcrs)).
Proof.
  apply (Geocentric_observe_and_sub sample_gcrs
           (new_position Geocentric (4, 5, 6) (Some (0, 0, 1))
              (Some sample_jd))
           _ sample_gcrs_method eq_refl eq_refl).
Defined.

Lemma apparent_then_altaz_witness :
  apparent sample_limb_angle sample_add_deflection sample_add_aberration
    sample_astrometric = Ok sample_apparent
  /\ observer sample_apparent = observer sample_astrometric.
Proof.
  split; [reflexivity | ].
  apply (apparent_then_altaz sample_to_polar sample_limb_angle sample_refract
           sample_add_deflection sample_add_aberration
           sample_astrometric sample_apparent PyNone (PyStr "standard")
           eq_refl).
Defined.

Lemma Topos_call_and_gcrs_witness :
  velocity (sample_earth Datatypes.tt sample_jd) = Some (1, 1, 1)
  /\ exists l g g_v,
       Topos_call rot_z_model sample_terra sample_earth sample_AU_of_m
         sample_topos (Some Datatypes.tt) sample_jd = Ok l
       /\ Topos_gcrs rot_z_model sample_terra sample_AU_of_m
            sample_topos (Some Datatypes.tt) sample_jd = Ok g
       /\ velocity g = Some g_v.
Proof.
  split; [reflexivity | ].
  destruct (Topos_call_and_gcrs rot_z_model sample_terra sample_earth
              sample_AU_of_m sample_topos Datatypes.tt sample_jd (1, 1, 1)
              eq_refl)
    as (l & g & g_v & Hl & Hg & Hv & _).
  exists l, g, g_v; repeat split; assumption.
Defined.

Lemma Topos_gcrs_observe_altaz_witness :
  exists o a,
    Topos_gcrs rot_z_model sample_terra sample_AU_of_m
      sample_topos (Some Datatypes.tt) sample_jd = Ok o
    /\ Geocentric_observe o (mkBody (Some (Some sample_gcrs_method))) = Ok a
    /\ is_Ok (altaz sample_to_polar sample_refract a PyNone (PyStr "standard"))
       = true.
Proof.
  destruct (Topos_gcrs_observe_altaz sample_to_polar rot_z_model
              sample_refract sample_terra sample_AU_of_m
              sample_topos Datatypes.tt sample_jd sample_gcrs_method
              (new_position Geocentric (4, 5, 6) (Some (0, 0, 1))
                 (Some sample_jd))
              (0, 0, 1) (PyStr "standard")
              _ _ _ eq_refl eq_refl eq_refl)
    as (o & a & Ho & Ha & _ & _ & Halt).
  exists o, a; repeat split; try assumption.
  rewrite Halt; reflexivity.
Defined.

Lemma Topos_call_apparent_altaz_witness :
  Topos_call rot_z_model sample_terra sample_earth sample_AU_of_m
    sample_topos (Some Datatypes.tt) sample_jd = Ok sample_located
  /\ exists a,
       apparent sample_limb_angle sample_add_deflection sample_add_aberration
         sample_astrometric_located = Ok a
       /\ is_Ok (altaz sample_to_polar sample_refract a PyNone
                   (PyStr "standard")) = true.
Proof.
  split; [reflexivity | ].
  destruct (Topos_call_apparent_altaz sample_to_polar rot_z_model
              sample_limb_angle sample_refract sample_add_deflection
              sample_add_aberration sample_terra sample_earth sample_AU_of_m
              sample_topos Datatypes.tt sample_jd sample_jd sample_located
              sample_astrometric_located 0 (PyStr "standard")
              eq_refl eq_refl eq_refl eq_refl)
    as (a & r & alt & az & Ha & _ & _ & Halt).
  exists a; split; [exact Ha | rewrite Halt; reflexivity].
Defined.

Lemma Topos_gcrs_apparent_witness :
  Topos_gcrs rot_z_model sample_terra sample_AU_of_m
    sample_topos (Some Datatypes.tt) sample_jd = Ok sample_gcrs
  /\ include_earth_deflection sample_limb_angle sample_gcrs
       (position sample_astrometric_gcrs) = BoolArray [false].
Proof.
  split; [reflexivity | ].
  apply (Topos_gcrs_apparent rot_z_model sample_limb_angle
           sample_add_deflection sample_add_aberration sample_terra
           sample_AU_of_m
           sample_topos Datatypes.tt sample_jd sample_jd sample_gcrs
           sample_astrometric_gcrs 0 eq_refl eq_refl eq_refl eq_refl).
Defined.
